(** * reddit_monitor: a shallow embedding of [src/reddit_monitor.py]

    The development follows the layout of the Python module:
    - the Python primitives the module relies on ([str.lower], the [in]
      operator on strings, [str()] on integers, slicing, [list.sort]);
    - [check_relevance];
    - [search_reddit] (collection loop, deduplication, ranking);
    - [monitor_reddit] (one iteration of the stream loop, and prefixes of it);
    - [output_results] with its three renderers, over an explicit world
      (standard output, error stream, files).

    Text is modelled by [string]: a Python [str] whose code points are below
    256.  Python integers are [Z].  Code that may raise returns an [outcome];
    the two places where the module can meet an exception of its
    environment are modelled: the search client and [datetime.fromtimestamp]
    inside the [try] block of [search_reddit], and [open] in
    [output_results]. *)

From Stdlib Require Import ZArith Ascii String List Lia Bool.
From Stdlib Require Import DecimalString DecimalZ.
From stdpp Require Import base gmap strings list sorting.

Set Warnings "-register-all".

#[local] Arguments String.append !_ _ : simpl nomatch.

(** ** Strings *)

Module PyStr.

(** Code point of a character, and back. *)
Definition ord (c : ascii) : N := N_of_ascii c.
Definition chr (n : N) : ascii := ascii_of_N n.

(** [str.lower] on one code point below 256: the ASCII capitals and the
    Latin-1 capitals U+00C0..U+00DE (except the multiplication sign U+00D7)
    move up by 32, every other character is its own lower case. *)
Definition lower_char (c : ascii) : ascii :=
  let n := ord c in
  if ((65 <=? n) && (n <=? 90))%N then chr (n + 32)
  else if ((192 <=? n) && (n <=? 222) && negb (n =? 215))%N then chr (n + 32)
  else c.

(** [s.lower()] for text whose code points are all below 256, where it
    works character by character.  Beyond that alphabet [str.lower] depends
    on the neighbours of a character (the final sigma), so facts that use
    the character-wise form, such as [lower (a ++ b) = lower a ++ lower b],
    are facts about text below 256 only. *)
Fixpoint lower (s : string) : string :=
  match s with
  | EmptyString => EmptyString
  | String c s' => String (lower_char c) (lower s')
  end.

(** [needle in hay]: [needle] starts at some position of [hay]. *)
Fixpoint contains (needle hay : string) : bool :=
  String.prefix needle hay ||
  match hay with
  | EmptyString => false
  | String _ hay' => contains needle hay'
  end.

(** [s.endswith(suffix)] *)
Fixpoint endswith (s suffix : string) : bool :=
  String.eqb s suffix ||
  match s with
  | EmptyString => false
  | String _ s' => endswith s' suffix
  end.

(** The substring relation, stated without reference to the search. *)
Definition substring_of (needle hay : string) : Prop :=
  exists pre post, hay = pre +:+ needle +:+ post.

End PyStr.

(** ** Relevance filter *)

(** [check_relevance(text, keywords)]:
    [any(kw.lower() in text_lower for kw in keywords)]. *)
Definition check_relevance (text : string) (keywords : list string) : bool :=
  let text_lower := PyStr.lower text in
  existsb (fun kw => PyStr.contains (PyStr.lower kw) text_lower) keywords.

(** ** Integers and timestamps as text *)

Module PyFmt.

#[local] Open Scope Z_scope.

(** [str(n)] for a Python integer. *)
Definition str_of_Z (n : Z) : string :=
  DecimalString.NilZero.string_of_int (Z.to_int n).

(** [str(len(l))] *)
Definition str_of_len {A} (l : list A) : string :=
  str_of_Z (Z.of_nat (length l)).

Definition digit_char (k : Z) : ascii := ascii_of_N (48 + Z.to_N k).

(** ["%0wd" % n] for [0 <= n < 10^w]: the [w] low decimal digits of [n]. *)
Fixpoint zfill_acc (w : nat) (n : Z) (acc : string) : string :=
  match w with
  | O => acc
  | S w' => zfill_acc w' (n / 10) (String (digit_char (n mod 10)) acc)
  end.

Definition zfill (w : nat) (n : Z) : string := zfill_acc w n "".

(** A naive [datetime.datetime] value. *)
Record datetime := Datetime {
  year : Z; month : Z; day : Z;
  hour : Z; minute : Z; second : Z; microsecond : Z
}.

(** The field ranges every [datetime.datetime] object satisfies. *)
Definition valid_datetime (d : datetime) : Prop :=
  1 <= year d <= 9999 /\ 1 <= month d <= 12 /\ 1 <= day d <= 31 /\
  0 <= hour d < 24 /\ 0 <= minute d < 60 /\ 0 <= second d < 60 /\
  0 <= microsecond d < 1000000.

(** [d.isoformat()]: [YYYY-MM-DDTHH:MM:SS], followed by [.ffffff] when the
    microsecond field is not zero. *)
Definition isoformat (d : datetime) : string :=
  zfill 4 (year d) +:+ "-" +:+ zfill 2 (month d) +:+ "-" +:+ zfill 2 (day d)
  +:+ "T" +:+ zfill 2 (hour d) +:+ ":" +:+ zfill 2 (minute d)
  +:+ ":" +:+ zfill 2 (second d)
  +:+ (if microsecond d =? 0 then "" else "." +:+ zfill 6 (microsecond d)).

End PyFmt.

(** ** Data model *)

(** A post record: the dictionary with the seven keys [title], [subreddit],
    [score], [comments], [url], [created], [author] that [search_reddit] and
    [monitor_reddit] build. *)
Record post_record := PostRecord {
  title : string;
  subreddit : string;
  score : Z;
  comments : Z;
  url : string;
  created : string;
  author : string
}.

#[global] Instance post_record_eq_dec : EqDecision post_record.
Proof. solve_decision. Defined.

(** The attributes of a submission object of the platform client that the
    module reads.  [author] is [None] for a deleted account, otherwise its
    name; [created_utc] is the creation time in epoch seconds. *)
Module Praw.

Record submission := Submission {
  title : string;
  subreddit : string;
  score : Z;
  num_comments : Z;
  permalink : string;
  created_utc : Z;
  author : option string;
  selftext : option string
}.

(** What iterating over [subreddit.search(...)] does: it yields some
    submissions and then either ends, or raises an exception (of class
    [Exception], the ones the loop catches) whose message is the given
    string. *)
Record listing := Listing {
  yielded : list submission;
  raised : option string
}.

(** The same submission with another creation time. *)
Definition with_created_utc (t : Z) (s : submission) : submission :=
  Submission (title s) (subreddit s) (score s) (num_comments s) (permalink s)
    t (author s) (selftext s).

End Praw.

(** ** JSON text *)

Module Json.

Inductive value :=
| JNull
| JBool (b : bool)
| JInt (n : Z)
| JStr (s : string)
| JArr (items : list value)
| JObj (members : list (string * value)).

Definition dquote : ascii := "034"%char.
Definition backslash : ascii := "092"%char.
Definition newline : ascii := "010"%char.

Definition hex_digit (n : N) : ascii :=
  if (n <? 10)%N then ascii_of_N (48 + n) else ascii_of_N (87 + n).

(** One character of a string literal, as [json.dumps] writes it with
    [ensure_ascii=True]: the two-character escapes, the printable ASCII
    characters as they are, everything else as [\u00xx]. *)
Definition escape_char (c : ascii) : string :=
  let n := N_of_ascii c in
  if (n =? 34)%N then String backslash (String dquote "")
  else if (n =? 92)%N then String backslash (String backslash "")
  else if (n =? 10)%N then String backslash "n"
  else if (n =? 13)%N then String backslash "r"
  else if (n =? 9)%N then String backslash "t"
  else if (n =? 8)%N then String backslash "b"
  else if (n =? 12)%N then String backslash "f"
  else if ((32 <=? n) && (n <=? 126))%N then String c ""
  else String backslash
         (String "u" (String "0" (String "0"
            (String (hex_digit (n / 16)) (String (hex_digit (n mod 16)) ""))))).

Fixpoint escape (s : string) : string :=
  match s with
  | EmptyString => EmptyString
  | String c s' => escape_char c +:+ escape s'
  end.

Definition encode_string (s : string) : string :=
  String dquote (escape s +:+ String dquote "").

Fixpoint spaces (n : nat) : string :=
  match n with O => "" | S n' => String " " (spaces n') end.

(** The line break and indentation written before an item at nesting
    depth [level]; nothing when no [indent] was asked for. *)
Definition newline_indent (indent : option nat) (level : nat) : string :=
  match indent with
  | None => ""
  | Some k => String newline (spaces (k * level))
  end.

Definition item_separator (indent : option nat) : string :=
  match indent with None => ", " | Some _ => "," end.

Definition key_separator : string := ": ".

(** [json.dumps(v, indent=indent)], at nesting depth [level]. *)
Fixpoint encode (indent : option nat) (level : nat) (v : value) : string :=
  match v with
  | JNull => "null"
  | JBool true => "true"
  | JBool false => "false"
  | JInt n => PyFmt.str_of_Z n
  | JStr s => encode_string s
  | JArr [] => "[]"
  | JArr (x :: xs) =>
      "[" +:+ newline_indent indent (S level) +:+ encode indent (S level) x
      +:+ (fix rest (l : list value) : string :=
             match l with
             | [] => ""
             | y :: l' =>
                 item_separator indent +:+ newline_indent indent (S level)
                 +:+ encode indent (S level) y +:+ rest l'
             end) xs
      +:+ newline_indent indent level +:+ "]"
  | JObj [] => "{}"
  | JObj ((k, x) :: ms) =>
      "{" +:+ newline_indent indent (S level)
      +:+ encode_string k +:+ key_separator +:+ encode indent (S level) x
      +:+ (fix rest (l : list (string * value)) : string :=
             match l with
             | [] => ""
             | (k', y) :: l' =>
                 item_separator indent +:+ newline_indent indent (S level)
                 +:+ encode_string k' +:+ key_separator
                 +:+ encode indent (S level) y +:+ rest l'
             end) ms
      +:+ newline_indent indent level +:+ "}"
  end.

Definition dumps (indent : option nat) (v : value) : string :=
  encode indent 0 v.

(** *** Reading JSON text: [json.loads]

    Numbers with a fraction or an exponent are Python floats and
    [\u] escapes of 256 and above leave the modelled character range: on
    both the reader gives [None], as on text that is not JSON. *)

Definition is_ws (c : ascii) : bool :=
  let n := N_of_ascii c in
  ((n =? 32) || (n =? 9) || (n =? 10) || (n =? 13))%N.

Fixpoint skip_ws (s : string) : string :=
  match s with
  | EmptyString => EmptyString
  | String c s' => if is_ws c then skip_ws s' else s
  end.

Definition is_digit (c : ascii) : bool :=
  let n := N_of_ascii c in ((48 <=? n) && (n <=? 57))%N.

Definition hex_value (c : ascii) : option N :=
  let n := N_of_ascii c in
  if ((48 <=? n) && (n <=? 57))%N then Some (n - 48)%N
  else if ((97 <=? n) && (n <=? 102))%N then Some (n - 87)%N
  else if ((65 <=? n) && (n <=? 70))%N then Some (n - 55)%N
  else None.

(** The code point of the four hexadecimal digits of a [\u] escape. *)
Definition hex4 (h1 h2 h3 h4 : ascii) : option N :=
  a ← hex_value h1; b ← hex_value h2; c ← hex_value h3; d ← hex_value h4;
  Some (((a * 16 + b) * 16 + c) * 16 + d)%N.

(** The character a two-character escape stands for. *)
Definition unescape (e : ascii) : option ascii :=
  let n := N_of_ascii e in
  if (n =? 34)%N then Some dquote
  else if (n =? 92)%N then Some backslash
  else if (n =? 47)%N then Some "/"%char
  else if (n =? 98)%N then Some "008"%char
  else if (n =? 102)%N then Some "012"%char
  else if (n =? 110)%N then Some "010"%char
  else if (n =? 114)%N then Some "013"%char
  else if (n =? 116)%N then Some "009"%char
  else None.

(** A string literal from just after its opening quote: the text it
    denotes and the input after its closing quote. *)
Fixpoint scan_string (s : string) : option (string * string) :=
  match s with
  | EmptyString => None
  | String c s' =>
      let n := N_of_ascii c in
      if (n =? 34)%N then Some (EmptyString, s')
      else if (n =? 92)%N then
        match s' with
        | EmptyString => None
        | String e s'' =>
            match unescape e with
            | Some ch =>
                match scan_string s'' with
                | Some (t, rest) => Some (String ch t, rest)
                | None => None
                end
            | None =>
                if (N_of_ascii e =? 117)%N then
                  match s'' with
                  | String h1 (String h2 (String h3 (String h4 s3))) =>
                      match hex4 h1 h2 h3 h4 with
                      | Some cp =>
                          if (cp <? 256)%N then
                            match scan_string s3 with
                            | Some (t, rest) =>
                                Some (String (ascii_of_N cp) t, rest)
                            | None => None
                            end
                          else None
                      | None => None
                      end
                  | _ => None
                  end
                else None
            end
        end
      else if (n <? 32)%N then None
      else
        match scan_string s' with
        | Some (t, rest) => Some (String c t, rest)
        | None => None
        end
  end.

(** The longest run of digits at the head of the input. *)
Fixpoint scan_digits (s : string) : string * string :=
  match s with
  | EmptyString => (EmptyString, EmptyString)
  | String c s' =>
      if is_digit c
      then let '(d, rest) := scan_digits s' in (String c d, rest)
      else (EmptyString, s)
  end.

Definition starts_with_digit (s : string) : bool :=
  match s with String c _ => is_digit c | EmptyString => false end.

(** Does a fraction ([.] and a digit) or an exponent ([e] or [E], an
    optional sign, a digit) follow? *)
Definition float_follows (s : string) : bool :=
  match s with
  | String c s' =>
      let n := N_of_ascii c in
      if (n =? 46)%N then starts_with_digit s'
      else if ((n =? 101) || (n =? 69))%N then
        match s' with
        | String c' s'' =>
            if ((N_of_ascii c' =? 43) || (N_of_ascii c' =? 45))%N
            then starts_with_digit s''
            else is_digit c'
        | EmptyString => false
        end
      else false
  | EmptyString => false
  end.

(** The integer part of a number: an optional minus sign, then [0] or a
    digit other than [0] followed by digits. *)
Definition scan_integer (s : string) : option (string * string) :=
  let '(sign, s1) :=
    match s with
    | String c s' => if (N_of_ascii c =? 45)%N then ("-", s') else ("", s)
    | EmptyString => ("", s)
    end in
  match s1 with
  | EmptyString => None
  | String c s2 =>
      if (N_of_ascii c =? 48)%N then Some (sign +:+ "0", s2)
      else if is_digit c then
        let '(d, rest) := scan_digits s2 in Some (sign +:+ String c d, rest)
      else None
  end.

Definition scan_number (s : string) : option (Z * string) :=
  '(lexeme, rest) ← scan_integer s;
  if float_follows rest then None
  else
    n ← DecimalString.NilZero.int_of_string lexeme; Some (Z.of_int n, rest).

(** [dict.__setitem__] on the ordered members: a key that is present
    keeps its place and takes the new value. *)
Fixpoint dict_set (k : string) (v : value) (d : list (string * value))
    : list (string * value) :=
  match d with
  | [] => [(k, v)]
  | (k', v') :: d' =>
      if String.eqb k k' then (k, v) :: d' else (k', v') :: dict_set k v d'
  end.

(** [dict(pairs)] *)
Definition dict_of_pairs (pairs : list (string * value))
    : list (string * value) :=
  fold_left (fun d kv => dict_set kv.1 kv.2 d) pairs [].

Definition literal (word : string) (v : value) (s : string)
    : option (value * string) :=
  if String.prefix word s
  then Some (v, String.substring (String.length word)
                  (String.length s - String.length word) s)
  else None.

(** One value at the head of the input.  [parse_items] reads the items of
    an array up to and including its closing bracket, [parse_members] the
    members of an object up to and including its closing brace; both start
    at the first character of an item. *)
Fixpoint parse_value (fuel : nat) (s : string) : option (value * string) :=
  match fuel with
  | O => None
  | S fuel' =>
      match s with
      | EmptyString => None
      | String c s' =>
          let n := N_of_ascii c in
          if (n =? 34)%N then
            '(t, rest) ← scan_string s'; Some (JStr t, rest)
          else if (n =? 123)%N then
            match skip_ws s' with
            | String c1 r1 =>
                if (N_of_ascii c1 =? 125)%N then Some (JObj [], r1)
                else
                  '(ms, rest) ← parse_members fuel' (String c1 r1);
                  Some (JObj (dict_of_pairs ms), rest)
            | EmptyString => None
            end
          else if (n =? 91)%N then
            match skip_ws s' with
            | String c1 r1 =>
                if (N_of_ascii c1 =? 93)%N then Some (JArr [], r1)
                else
                  '(vs, rest) ← parse_items fuel' (String c1 r1);
                  Some (JArr vs, rest)
            | EmptyString => None
            end
          else if (n =? 110)%N then literal "null" JNull s
          else if (n =? 116)%N then literal "true" (JBool true) s
          else if (n =? 102)%N then literal "false" (JBool false) s
          else '(z, rest) ← scan_number s; Some (JInt z, rest)
      end
  end
with parse_items (fuel : nat) (s : string)
    : option (list value * string) :=
  match fuel with
  | O => None
  | S fuel' =>
      '(v, r) ← parse_value fuel' s;
      match skip_ws r with
      | String c r1 =>
          if (N_of_ascii c =? 93)%N then Some ([v], r1)
          else if (N_of_ascii c =? 44)%N then
            '(vs, rest) ← parse_items fuel' (skip_ws r1);
            Some (v :: vs, rest)
          else None
      | EmptyString => None
      end
  end
with parse_members (fuel : nat) (s : string)
    : option (list (string * value) * string) :=
  match fuel with
  | O => None
  | S fuel' =>
      match s with
      | String q s1 =>
          if (N_of_ascii q =? 34)%N then
            '(k, r) ← scan_string s1;
            match skip_ws r with
            | String c r1 =>
                if (N_of_ascii c =? 58)%N then
                  '(v, r2) ← parse_value fuel' (skip_ws r1);
                  match skip_ws r2 with
                  | String c2 r3 =>
                      if (N_of_ascii c2 =? 125)%N then Some ([(k, v)], r3)
                      else if (N_of_ascii c2 =? 44)%N then
                        '(ms, rest) ← parse_members fuel' (skip_ws r3);
                        Some ((k, v) :: ms, rest)
                      else None
                  | EmptyString => None
                  end
                else None
            | EmptyString => None
            end
          else None
      | EmptyString => None
      end
  end.

(** [json.loads(s)]: one value, with nothing but white space around it. *)
Definition loads (s : string) : option value :=
  '(v, rest) ← parse_value (2 * String.length s + 2) (skip_ws s);
  match skip_ws rest with
  | EmptyString => Some v
  | String _ _ => None
  end.

End Json.

(** A record as the JSON object [json.dumps] sees: the keys in the order the
    dictionary literal lists them. *)
Definition json_of_record (r : post_record) : Json.value :=
  Json.JObj
    [ ("title", Json.JStr (title r));
      ("subreddit", Json.JStr (subreddit r));
      ("score", Json.JInt (score r));
      ("comments", Json.JInt (comments r));
      ("url", Json.JStr (url r));
      ("created", Json.JStr (created r));
      ("author", Json.JStr (author r)) ].

Definition json_of_results (results : list post_record) : Json.value :=
  Json.JArr (map json_of_record results).

(** The text [json.dumps(results, indent=2)] writes after the first record:
    for each further record a comma, a line break, the indentation and the
    record. *)
Fixpoint more_items (results : list post_record) : string :=
  match results with
  | [] => ""
  | y :: results' =>
      "," +:+ Json.newline_indent (Some 2) 1
      +:+ Json.encode (Some 2) 1 (json_of_record y) +:+ more_items results'
  end.

Definition sample_post_1 : post_record :=
  PostRecord "Test Post 1" "weddingplanning" 100 50
    "https://reddit.com/r/weddingplanning/test1" "2025-01-01T12:00:00"
    "testuser1".

Definition sample_post_2 : post_record :=
  PostRecord "Test Post 2" "eventplanning" 200 75
    "https://reddit.com/r/eventplanning/test2" "2025-01-02T12:00:00"
    "testuser2".

(** ** Exceptions *)

(** What a piece of code that may raise gives: the value it returns, or the
    message of the exception it raises. *)
Inductive outcome (A : Type) : Type :=
| Returned (a : A)
| Raised (e : string).

Arguments Returned {A} a.
Arguments Raised {A} e.

Definition outcome_map {A B} (f : A -> B) (o : outcome A) : outcome B :=
  match o with
  | Returned a => Returned (f a)
  | Raised e => Raised e
  end.

(** ** The world: standard output, the error stream, files *)

Record world := World {
  stdout : string;
  stderr : string;
  files : gmap string string
}.

Definition empty_world : world := World "" "" ∅.

(** Code that prints or writes files: a state transformer over the world. *)
Definition IO (A : Type) : Type := world -> A * world.

#[global] Instance IO_ret : MRet IO := fun A a w => (a, w).
#[global] Instance IO_bind : MBind IO :=
  fun A B k m w => let '(a, w') := m w in k a w'.

Definition run {A} (m : IO A) (w : world) : world := snd (m w).
Definition result {A} (m : IO A) (w : world) : A := fst (m w).

(** [sys.stdout.write(s)] *)
Definition write_stdout (s : string) : IO unit :=
  fun w => (tt, World (stdout w +:+ s) (stderr w) (files w)).

(** [print(s)] *)
Definition print (s : string) : IO unit :=
  write_stdout (s +:+ String Json.newline "").

(** [print(s, file=sys.stderr)] *)
Definition print_stderr (s : string) : IO unit :=
  fun w =>
    (tt, World (stdout w) (stderr w +:+ s +:+ String Json.newline "")
           (files w)).

(** [with open(path, "w") as f: f.write(content)].  [open_error path] is
    the message of the exception [open] raises for that path (a directory,
    a missing parent directory, a name the system refuses), or [None] when
    the file can be opened; in that case it is created or emptied and
    receives the content. *)
Definition write_file (open_error : string -> option string)
    (path content : string) : IO (outcome unit) :=
  fun w =>
    match open_error path with
    | Some e => (Raised e, w)
    | None =>
        (Returned tt,
         World (stdout w) (stderr w) (<[path := content]> (files w)))
    end.

(** Sequencing of code that may raise: an exception ends the sequence. *)
Definition and_then {A B} (m : IO (outcome A)) (k : A -> IO (outcome B))
    : IO (outcome B) :=
  r ← m;
  match r with
  | Returned a => k a
  | Raised e => mret (Raised e)
  end.

(** ** Search aggregator *)

(** The ranking key, [int(x["score"]) + int(x["comments"])]. *)
Definition engagement (x : post_record) : Z := (score x + comments x)%Z.

(** The deduplication loop of [search_reddit]: [seen] holds the URLs met so
    far, [unique_results] the records kept so far. *)
Fixpoint dedup_loop (results : list post_record) (seen : gset string)
    (unique_results : list post_record) : list post_record :=
  match results with
  | [] => unique_results
  | r :: results' =>
      let url := url r in
      if decide (url ∈ seen) then dedup_loop results' seen unique_results
      else dedup_loop results' ({[url]} ∪ seen) (unique_results ++ [r])
  end.

Definition dedup (results : list post_record) : list post_record :=
  dedup_loop results ∅ [].

(** [l.sort(key=key, reverse=True)].  Python's sort is stable, also with
    [reverse=True]; a stable sort has one possible result
    ([sort_desc_unique] below), the one of this insertion sort: an element
    moves past the elements of strictly greater key and stops before the
    first one whose key is not greater. *)
Fixpoint insert_desc {A} (key : A -> Z) (x : A) (l : list A) : list A :=
  match l with
  | [] => [x]
  | y :: l' =>
      if (key x <? key y)%Z then y :: insert_desc key x l' else x :: y :: l'
  end.

Fixpoint sort_desc {A} (key : A -> Z) (l : list A) : list A :=
  match l with
  | [] => []
  | x :: l' => insert_desc key x (sort_desc key l')
  end.

(** The first record of a list that carries a given URL. *)
Definition first_with_url (u : string) (results : list post_record)
    : option post_record :=
  find (fun r => String.eqb (url r) u) results.

(** Descending order of a key. *)
Definition key_ge {A} (key : A -> Z) (a b : A) : Prop := (key b <= key a)%Z.

Section SearchAggregator.

(** [datetime.fromtimestamp], which depends on the local time zone and
    raises for a time outside the years 1 to 9999. *)
Variable fromtimestamp : Z -> outcome PyFmt.datetime.

(** The client: [search subreddits keyword sort time_filter limit] is what
    iterating over [reddit.subreddit(subreddits).search(keyword, sort=sort,
    time_filter=time_filter, limit=limit)] does. *)
Variable search : string -> string -> string -> string -> Z -> Praw.listing.

(** The dictionary built for one post of a search; building it raises
    when the conversion of the creation time does. *)
Definition search_record (post : Praw.submission) : outcome post_record :=
  match fromtimestamp (Praw.created_utc post) with
  | Returned d =>
      Returned
        {| title := Praw.title post;
           subreddit := Praw.subreddit post;
           score := Praw.score post;
           comments := Praw.num_comments post;
           url := "https://reddit.com" +:+ Praw.permalink post;
           created := PyFmt.isoformat d;
           author := match Praw.author post with
                     | Some name => name
                     | None => "[deleted]"
                     end |}
  | Raised e => Raised e
  end.

(** The body of the inner [for post in ...] loop over the posts a search
    yields: each record is appended to [results] as soon as it is built; the
    first record that cannot be built ends the loop with the message of its
    exception. *)
Fixpoint append_records (posts : list Praw.submission)
    (results : list post_record) : list post_record * option string :=
  match posts with
  | [] => (results, None)
  | post :: posts' =>
      match search_record post with
      | Returned r => append_records posts' (results ++ [r])
      | Raised e => (results, Some e)
      end
  end.

(** The [try] block for one keyword: [results] as the block leaves it, and
    the message of the exception that ended it, if one did: the one raised
    while a record was built, or else the one the search raised after its
    last post. *)
Definition try_keyword (subreddits time_filter : string) (limit : Z)
    (sort keyword : string) (results : list post_record)
    : list post_record * option string :=
  let l := search subreddits keyword sort time_filter limit in
  let '(results, failed) := append_records (Praw.yielded l) results in
  match failed with
  | Some e => (results, Some e)
  | None => (results, Praw.raised l)
  end.

(** The records one keyword adds, and the error it ends with, if any. *)
Definition keyword_records (subreddits time_filter : string) (limit : Z)
    (sort keyword : string) : list post_record :=
  (try_keyword subreddits time_filter limit sort keyword []).1.

Definition keyword_error (subreddits time_filter : string) (limit : Z)
    (sort keyword : string) : option string :=
  (try_keyword subreddits time_filter limit sort keyword []).2.

(** The [for keyword in keywords] loop: an exception ends the work on that
    keyword and is reported on the error stream; the loop goes on. *)
Fixpoint collect (subreddits time_filter : string) (limit : Z)
    (sort : string) (keywords : list string) (results : list post_record)
    : IO (list post_record) :=
  match keywords with
  | [] => mret results
  | keyword :: keywords' =>
      let '(results, failed) :=
        try_keyword subreddits time_filter limit sort keyword results in
      match failed with
      | Some e =>
          print_stderr
            ("Error searching for '" +:+ keyword +:+ "': " +:+ e) ;;
          collect subreddits time_filter limit sort keywords' results
      | None => collect subreddits time_filter limit sort keywords' results
      end
  end.

Definition search_reddit (subreddits : string) (keywords : list string)
    (time_filter : string) (limit : Z) (sort : string)
    : IO (list post_record) :=
  results ← collect subreddits time_filter limit sort keywords [];
  let unique_results := dedup results in
  mret (sort_desc engagement unique_results).

End SearchAggregator.

(** ** Stream monitor *)

(** [sep.join(l)] *)
Fixpoint join (sep : string) (l : list string) : string :=
  match l with
  | [] => ""
  | [s] => s
  | s :: l' => s +:+ sep +:+ join sep l'
  end.

(** [s * n] *)
Fixpoint repeat_str (s : string) (n : nat) : string :=
  match n with O => "" | S n' => s +:+ repeat_str s n' end.

(** [x if x else ""] for an optional text. *)
Definition or_empty (x : option string) : string :=
  match x with Some s => s | None => "" end.

(** The dictionary built for a matching submission of the stream; [now] is
    the value [datetime.now()] returns while the event is handled. *)
Definition monitor_record (submission : Praw.submission)
    (now : PyFmt.datetime) : post_record :=
  {| title := Praw.title submission;
     subreddit := Praw.subreddit submission;
     score := Praw.score submission;
     comments := Praw.num_comments submission;
     url := "https://reddit.com" +:+ Praw.permalink submission;
     created := PyFmt.isoformat now;
     author := match Praw.author submission with
               | Some name => name
               | None => "[deleted]"
               end |}.

(** The record one iteration of the stream loop builds, if the submission is
    relevant. *)
Definition monitor_match (keywords : list string)
    (submission : Praw.submission) (now : PyFmt.datetime)
    : option post_record :=
  let title := Praw.title submission in
  let selftext := or_empty (Praw.selftext submission) in
  if check_relevance title keywords || check_relevance selftext keywords
  then Some (monitor_record submission now)
  else None.

(** One iteration of the stream loop. *)
Definition monitor_event (keywords : list string)
    (event : Praw.submission * PyFmt.datetime) : IO unit :=
  match monitor_match keywords event.1 event.2 with
  | Some result => print (Json.dumps None (json_of_record result))
  | None => mret tt
  end.

(** [monitor_reddit] over the events the stream has delivered so far: the
    loop has no exit of its own, so a run is described by its prefixes. *)
Fixpoint monitor_loop (keywords : list string)
    (events : list (Praw.submission * PyFmt.datetime)) : IO unit :=
  match events with
  | [] => mret tt
  | event :: events' =>
      monitor_event keywords event ;; monitor_loop keywords events'
  end.

Definition monitor_reddit (subreddits : string) (keywords : list string)
    (events : list (Praw.submission * PyFmt.datetime)) : IO unit :=
  print ("Monitoring r/" +:+ subreddits +:+ " for: " +:+ join ", " keywords) ;;
  print (repeat_str "-" 60) ;;
  monitor_loop keywords events.

(** ** Result formatter *)

(** The rows [csv.writer] produces with the default dialect: comma
    delimiter, minimal quoting, doubled quote characters, CR LF at the end
    of each row. *)
Module Csv.

Definition is_special (c : ascii) : bool :=
  let n := N_of_ascii c in
  ((n =? 44) || (n =? 34) || (n =? 13) || (n =? 10))%N.

Fixpoint has_special (s : string) : bool :=
  match s with
  | EmptyString => false
  | String c s' => is_special c || has_special s'
  end.

Fixpoint double_quotes (s : string) : string :=
  match s with
  | EmptyString => EmptyString
  | String c s' =>
      if (N_of_ascii c =? 34)%N
      then String c (String c (double_quotes s'))
      else String c (double_quotes s')
  end.

Definition field (s : string) : string :=
  if has_special s
  then String Json.dquote (double_quotes s +:+ String Json.dquote "")
  else s.

Definition crlf : string := String "013"%char (String "010"%char "").

Definition row (fields : list string) : string :=
  match fields with
  | [ EmptyString ] => String Json.dquote (String Json.dquote crlf)
  | _ => join "," (map field fields) +:+ crlf
  end.

End Csv.

Definition fieldnames : list string :=
  ["title"; "subreddit"; "score"; "comments"; "url"; "created"; "author"].

(** [writer.writeheader()] *)
Definition csv_header : string := Csv.row fieldnames.

(** [writer.writerow(r)] of a [DictWriter] over [fieldnames] *)
Definition csv_row (r : post_record) : string :=
  Csv.row [ title r; subreddit r; PyFmt.str_of_Z (score r);
            PyFmt.str_of_Z (comments r); url r; created r; author r ].

(** [writer.writeheader(); writer.writerows(results)] *)
Definition csv_render (results : list post_record) : string :=
  csv_header +:+ foldr (fun r acc => csv_row r +:+ acc) "" results.

(** The five [print] calls of the text branch for one record. *)
Definition print_text_record (r : post_record) : IO unit :=
  print ("[" +:+ PyFmt.str_of_Z (score r) +:+ " upvotes, "
         +:+ PyFmt.str_of_Z (comments r) +:+ " comments] r/" +:+ subreddit r) ;;
  print ("  Title: " +:+ title r) ;;
  print ("  URL: " +:+ url r) ;;
  print ("  Author: u/" +:+ author r) ;;
  print "".

Fixpoint print_text_records (results : list post_record) : IO unit :=
  match results with
  | [] => mret tt
  | r :: results' => print_text_record r ;; print_text_records results'
  end.

(** Truth value of an optional path ([if output_file:]): [None] and the empty
    string are false. *)
Definition path_given (output_file : option string) : option string :=
  match output_file with
  | Some (String c s) => Some (String c s)
  | _ => None
  end.

(** Truth value of the optional cap ([if limit:]): [None] and [0] are
    false. *)
Definition limit_given (limit : option Z) : option Z :=
  match limit with
  | Some n => if (n =? 0)%Z then None else Some n
  | None => None
  end.

(** [l[:stop]]: a negative [stop] counts from the end. *)
Definition slice_to {A} (l : list A) (stop : Z) : list A :=
  if (0 <=? stop)%Z then take (Z.to_nat stop) l
  else take (length l - Z.to_nat (- stop)) l.

(** Lines 130-131: the records that are rendered. *)
Definition displayed (results : list post_record) (limit : option Z)
    : list post_record :=
  match limit_given limit with
  | Some n => slice_to results n
  | None => results
  end.

Definition saved_message (results : list post_record) (output_file : string)
    : string :=
  "Saved " +:+ PyFmt.str_of_len results +:+ " results to " +:+ output_file.

Section Formatter.

(** What [open(path, "w")] raises, if it does (see [write_file]). *)
Variable open_error : string -> option string.

(** [output_results] returns, or ends with the exception [open] raised: the
    file is then not written and nothing is confirmed. *)
Definition output_results (results : list post_record)
    (output_format : string) (output_file : option string)
    (limit : option Z) : IO (outcome unit) :=
  let results := displayed results limit in
  if String.eqb output_format "json" then
    let output := Json.dumps (Some 2) (json_of_results results) in
    match path_given output_file with
    | Some f =>
        and_then (write_file open_error f output) (fun _ =>
        print_stderr (saved_message results f) ;;
        mret (Returned tt))
    | None => print output ;; mret (Returned tt)
    end
  else if String.eqb output_format "csv"
          || match path_given output_file with
             | Some f => PyStr.endswith f ".csv"
             | None => false
             end then
    match path_given output_file with
    | Some f =>
        and_then (write_file open_error f (csv_render results)) (fun _ =>
        print_stderr (saved_message results f) ;;
        mret (Returned tt))
    | None => write_stdout (csv_render results) ;; mret (Returned tt)
    end
  else
    print ("Found " +:+ PyFmt.str_of_len results +:+ " relevant posts:"
           +:+ String Json.newline "") ;;
    print_text_records results ;;
    mret (Returned tt).

End Formatter.

(** ** Sample data *)

(** [datetime.fromtimestamp] when the local time zone is UTC: the civil date
    of a day count, then the time of day; a year outside 1 to 9999 raises. *)
Definition utc_fromtimestamp (t : Z) : outcome PyFmt.datetime :=
  (let days := t / 86400 in
   let secs := t mod 86400 in
   let z := days + 719468 in
   let era := z / 146097 in
   let doe := z - era * 146097 in
   let yoe := (doe - doe / 1460 + doe / 36524 - doe / 146096) / 365 in
   let doy := doe - (365 * yoe + yoe / 4 - yoe / 100) in
   let mp := (5 * doy + 2) / 153 in
   let d := doy - (153 * mp + 2) / 5 + 1 in
   let m := if mp <? 10 then mp + 3 else mp - 9 in
   let y := yoe + era * 400 + (if m <=? 2 then 1 else 0) in
   if (1 <=? y) && (y <=? 9999)
   then Returned (PyFmt.Datetime y m d (secs / 3600) (secs mod 3600 / 60)
                    (secs mod 60) 0)
   else Raised ("year " +:+ PyFmt.str_of_Z y +:+ " is out of range"))%Z.

Definition sample_submission : Praw.submission :=
  Praw.Submission "Seating chart help" "weddingplanning" 12 3
    "/r/weddingplanning/comments/abc/seating_chart_help/" 1735732800
    (Some "planner42") (Some "We have 120 guests.").

(** A client whose search for ["seating chart"] yields one submission and
    then fails, as when a later page of the listing cannot be fetched; every
    other search is empty. *)
Definition flaky_search (subreddits keyword sort time_filter : string)
    (limit : Z) : Praw.listing :=
  if String.eqb keyword "seating chart"
  then Praw.Listing [sample_submission] (Some "received 503 HTTP response")
  else Praw.Listing [] None.

(** A second submission, by a deleted account and without body text, and a
    submission whose creation time lies in the year 10000. *)
Definition sample_submission_2 : Praw.submission :=
  Praw.Submission "Table layout ideas" "eventplanning" 40 7
    "/r/eventplanning/comments/def/table_layout_ideas/" 1735819200
    None None.

Definition sample_submission_late : Praw.submission :=
  Praw.Submission "Seating plan for 3000 guests" "wedding" 5 1
    "/r/wedding/comments/ghi/seating_plan/" 253402300800
    (Some "farfuture") None.

(** A client that never fails: one submission for ["seating chart"], one
    for ["table layout"], none for any other keyword. *)
Definition steady_search (subreddits keyword sort time_filter : string)
    (limit : Z) : Praw.listing :=
  if String.eqb keyword "seating chart"
  then Praw.Listing [sample_submission] None
  else if String.eqb keyword "table layout"
  then Praw.Listing [sample_submission_2] None
  else Praw.Listing [] None.

(** A client whose search for ["seating plan"] yields three submissions,
    the second with a creation time that cannot be converted, and does not
    raise itself. *)
Definition late_search (subreddits keyword sort time_filter : string)
    (limit : Z) : Praw.listing :=
  if String.eqb keyword "seating plan"
  then Praw.Listing
         [sample_submission; sample_submission_late; sample_submission_2]
         None
  else Praw.Listing [] None.

(** An [open] that fails on the current directory and under a directory
    that does not exist, and succeeds on every other path. *)
Definition sample_open_error (path : string) : option string :=
  if String.eqb path "."
  then Some "[Errno 21] Is a directory: '.'"
  else if String.prefix "no_such_dir/" path
  then Some ("[Errno 2] No such file or directory: '" +:+ path +:+ "'")
  else None.

(** ** More string primitives *)

Module PyText.

(** [c.isspace()] for a code point below 256. *)
Definition is_space (c : ascii) : bool :=
  let n := N_of_ascii c in
  (((9 <=? n) && (n <=? 13)) || ((28 <=? n) && (n <=? 32))
   || (n =? 133) || (n =? 160))%N.

(** [s.lstrip()] *)
Fixpoint lstrip (s : string) : string :=
  match s with
  | EmptyString => EmptyString
  | String c s' => if is_space c then lstrip s' else s
  end.

(** [s.rstrip()] *)
Fixpoint rstrip (s : string) : string :=
  match s with
  | EmptyString => EmptyString
  | String c s' =>
      match rstrip s' with
      | EmptyString => if is_space c then EmptyString else String c EmptyString
      | r => String c r
      end
  end.

(** [s.strip()] *)
Definition strip (s : string) : string := rstrip (lstrip s).

(** [s.split(",")]: the pieces between the commas; never the empty list. *)
Fixpoint split_comma (s : string) : list string :=
  match s with
  | EmptyString => [EmptyString]
  | String c s' =>
      if (N_of_ascii c =? 44)%N then EmptyString :: split_comma s'
      else
        match split_comma s' with
        | piece :: pieces => String c piece :: pieces
        | [] => [String c EmptyString]
        end
  end.

(** Every character of [s] satisfies [p]. *)
Fixpoint all_chars (p : ascii -> bool) (s : string) : bool :=
  match s with
  | EmptyString => true
  | String c s' => p c && all_chars p s'
  end.

(** The printable ASCII characters, space to tilde. *)
Definition is_printable (c : ascii) : bool :=
  let n := N_of_ascii c in ((32 <=? n) && (n <=? 126))%N.

Definition first_char (s : string) : option ascii :=
  match s with String c _ => Some c | EmptyString => None end.

Fixpoint last_char (s : string) : option ascii :=
  match s with
  | EmptyString => None
  | String c EmptyString => Some c
  | String _ s' => last_char s'
  end.

Definition is_comma (c : ascii) : bool := (N_of_ascii c =? 44)%N.

(** The number of commas of [s]. *)
Fixpoint count_commas (s : string) : nat :=
  match s with
  | EmptyString => O
  | String c s' => (if is_comma c then 1 else 0) + count_commas s'
  end.

End PyText.

(** ** Command line *)

Definition DEFAULT_KEYWORDS : list string :=
  [ "seating chart"; "seating arrangement"; "table assignment";
    "guest seating"; "seating plan"; "wedding seating"; "event seating";
    "seat guests"; "table layout" ].

(** The namespace [parser.parse_args()] returns for the [search] command;
    the defaults of the options are already filled in, so only [keywords]
    and [output] can be [None]. *)
Record search_options := SearchOptions {
  search_subreddits : string;
  search_keywords : option string;
  search_time : string;
  search_sort : string;
  search_limit : Z;
  search_json : bool;
  search_output : option string
}.

(** The namespace for the [monitor] command. *)
Record monitor_options := MonitorOptions {
  monitor_subreddits : string;
  monitor_keywords : option string
}.

(** [args.command] with the options that come with it. *)
Inductive command :=
| NoCommand
| Search (options : search_options)
| Monitor (options : monitor_options).

(** Lines 249-252: the comma-separated option, each piece stripped, or the
    default keywords when the option is absent or empty. *)
Definition parse_keywords (keywords : option string) : list string :=
  match keywords with
  | Some (String c s) => map PyText.strip (PyText.split_comma (String c s))
  | _ => DEFAULT_KEYWORDS
  end.

(** Lines 263-265: the format [main] hands to [output_results]. *)
Definition main_output_format (json : bool) (output : option string)
    : string :=
  let output_format := if json then "json" else "text" in
  match path_given output with
  | Some f => if PyStr.endswith f ".json" then "json" else output_format
  | None => output_format
  end.

Section Main.

Variable fromtimestamp : Z -> outcome PyFmt.datetime.
Variable search : string -> string -> string -> string -> Z -> Praw.listing.

(** What [open(path, "w")] raises, if it does (see [write_file]). *)
Variable open_error : string -> option string.

(** The text [parser.print_help()] prints. *)
Variable help_text : string.

(** [main()] from the parsed arguments on.  [events] are the events the
    stream delivers while a [monitor] command runs; that command has no
    exit status, since the loop does not end by itself.  An exception that
    [output_results] raises is not caught: [main] ends with it instead of
    returning a status (the interpreter then prints the traceback and exits
    with status 1, outside [main]). *)
Definition main (args : command)
    (events : list (Praw.submission * PyFmt.datetime))
    : IO (outcome (option Z)) :=
  match args with
  | NoCommand => write_stdout help_text ;; mret (Returned (Some 1%Z))
  | Search o =>
      let keywords := parse_keywords (search_keywords o) in
      results ← search_reddit fromtimestamp search (search_subreddits o)
                  keywords (search_time o) 50 (search_sort o);
      let output_format :=
        main_output_format (search_json o) (search_output o) in
      and_then
        (output_results open_error results output_format (search_output o)
           (Some (search_limit o)))
        (fun _ => mret (Returned (Some 0%Z)))
  | Monitor o =>
      let keywords := parse_keywords (monitor_keywords o) in
      monitor_reddit (monitor_subreddits o) keywords events ;;
      mret (Returned None)
  end.

End Main.

(** ** Descriptions used in the statements below *)

(** The line the collection loop writes on the error stream for a keyword
    that ended with an error; nothing for the others. *)
Definition error_report (keyword : string) (failed : option string)
    : string :=
  match failed with
  | Some e =>
      "Error searching for '" +:+ keyword +:+ "': " +:+ e
      +:+ String Json.newline ""
  | None => ""
  end.

(** The line [monitor_reddit] prints for a record. *)
Definition monitor_line (r : post_record) : string :=
  Json.dumps None (json_of_record r) +:+ String Json.newline "".

(** The lines printed for a sequence of events: one per relevant event. *)
Fixpoint monitor_lines (keywords : list string)
    (events : list (Praw.submission * PyFmt.datetime)) : string :=
  match events with
  | [] => ""
  | event :: events' =>
      match monitor_match keywords event.1 event.2 with
      | Some r => monitor_line r +:+ monitor_lines keywords events'
      | None => monitor_lines keywords events'
      end
  end.

(** The two lines [monitor_reddit] prints before it listens. *)
Definition monitor_header (subreddits : string) (keywords : list string)
    : string :=
  "Monitoring r/" +:+ subreddits +:+ " for: " +:+ join ", " keywords
  +:+ String Json.newline "" +:+ repeat_str "-" 60
  +:+ String Json.newline "".

(** The block of five lines the text branch prints for a record. *)
Definition text_block (r : post_record) : string :=
  "[" +:+ PyFmt.str_of_Z (score r) +:+ " upvotes, "
  +:+ PyFmt.str_of_Z (comments r) +:+ " comments] r/" +:+ subreddit r
  +:+ String Json.newline ""
  +:+ "  Title: " +:+ title r +:+ String Json.newline ""
  +:+ "  URL: " +:+ url r +:+ String Json.newline ""
  +:+ "  Author: u/" +:+ author r +:+ String Json.newline ""
  +:+ String Json.newline "".

Example check_relevance_exact :
  check_relevance "Help with seating chart" ["seating chart"] = true.
Proof. reflexivity. Qed.

Example check_relevance_case :
  check_relevance "SEATING CHART help" ["seating chart"] = true.
Proof. reflexivity. Qed.

Example check_relevance_no_match :
  check_relevance "Wedding dress ideas" ["seating chart"] = false.
Proof. reflexivity. Qed.

Example check_relevance_empty_text :
  check_relevance "" ["seating chart"] = false.
Proof. reflexivity. Qed.

Example str_of_Z_examples :
  PyFmt.str_of_Z 0 = "0" /\ PyFmt.str_of_Z 275 = "275" /\
  PyFmt.str_of_Z (-12) = "-12".
Proof. repeat split. Qed.

Example isoformat_example :
  PyFmt.isoformat (PyFmt.Datetime 2025 1 2 12 0 0 0)%Z = "2025-01-02T12:00:00" /\
  PyFmt.isoformat (PyFmt.Datetime 2025 1 2 12 0 7 1500)%Z
    = "2025-01-02T12:00:07.001500".
Proof. split; reflexivity. Qed.

(** The ranking example of the specification: 275 ranks before 150. *)
Example sort_desc_example :
  sort_desc engagement [sample_post_1; sample_post_2]
    = [sample_post_2; sample_post_1].
Proof. reflexivity. Qed.

Example dedup_example :
  dedup [sample_post_1; sample_post_2; sample_post_1]
    = [sample_post_1; sample_post_2].
Proof. reflexivity. Qed.

Example slice_to_examples :
  slice_to [1; 2; 3] 2 = [1; 2] /\ slice_to [1; 2; 3] 7 = [1; 2; 3] /\
  slice_to [1; 2; 3] (-1) = [1; 2] /\ slice_to [1; 2; 3] (-5) = [].
Proof. repeat split. Qed.

Example csv_field_examples :
  Csv.field "a,b" = String Json.dquote ("a,b" +:+ String Json.dquote "") /\
  Csv.field "plain text" = "plain text".
Proof. split; reflexivity. Qed.

Example endswith_examples :
  PyStr.endswith "results.csv" ".csv" = true /\
  PyStr.endswith "results.txt" ".csv" = false /\
  PyStr.endswith "csv" ".csv" = false.
Proof. repeat split. Qed.

Example loads_example :
  Json.loads (Json.dumps (Some 2) (json_of_results [sample_post_1]))
    = Some (json_of_results [sample_post_1]).
Proof. reflexivity. Qed.

Module PyStrFacts.
Import PyStr.

Lemma app_nil_r (s : string) : s +:+ "" = s.
Proof. induction s as [|c s IH]; simpl; [reflexivity | now rewrite IH]. Qed.

Lemma app_assoc (a b c : string) : (a +:+ b) +:+ c = a +:+ b +:+ c.
Proof. induction a as [|x a IH]; simpl; [reflexivity | now rewrite IH]. Qed.

Lemma length_app (a b : string) :
  String.length (a +:+ b) = String.length a + String.length b.
Proof. induction a as [|x a IH]; simpl; [reflexivity | now rewrite IH]. Qed.

Lemma prefix_app (a b : string) : String.prefix a (a +:+ b) = true.
Proof.
  induction a as [|x a IH]; simpl.
  - now destruct b.
  - destruct (ascii_dec x x) as [_|ne]; [exact IH | now destruct ne].
Qed.

Lemma prefix_inv (a s : string) :
  String.prefix a s = true -> exists post, s = a +:+ post.
Proof.
  revert s; induction a as [|x a IH]; intros s H.
  - now exists s.
  - destruct s as [|y s]; simpl in H; [discriminate|].
    destruct (ascii_dec x y) as [->|]; [|discriminate].
    destruct (IH _ H) as [post ->]. now exists post.
Qed.

Lemma contains_spec (needle hay : string) :
  contains needle hay = true <-> substring_of needle hay.
Proof.
  split.
  - induction hay as [|c hay IH]; cbn [contains]; intros H.
    + rewrite orb_false_r in H. apply prefix_inv in H as [post E].
      exists "", post. exact E.
    + apply orb_true_iff in H as [H|H].
      * apply prefix_inv in H as [post E]. exists "", post. exact E.
      * destruct (IH H) as (pre & post & ->). now exists (String c pre), post.
  - intros (pre & post & ->).
    induction pre as [|c pre IH].
    + change ("" +:+ needle +:+ post) with (needle +:+ post).
      assert (P := prefix_app needle post).
      destruct (needle +:+ post); cbn [contains]; rewrite P; reflexivity.
    + change (String c pre +:+ needle +:+ post)
        with (String c (pre +:+ needle +:+ post)).
      cbn [contains]. rewrite IH. apply orb_true_r.
Qed.

Lemma lower_empty_inv (s : string) : lower s = "" -> s = "".
Proof. now destruct s. Qed.

Lemma contains_empty_hay (needle : string) :
  contains needle "" = true <-> needle = "".
Proof.
  cbn [contains]. rewrite orb_false_r.
  destruct needle; simpl; split; congruence.
Qed.

Lemma endswith_spec (s suffix : string) :
  endswith s suffix = true <-> exists pre, s = pre +:+ suffix.
Proof.
  split.
  - induction s as [|c s IH]; cbn [endswith]; intros H.
    + rewrite orb_false_r in H. apply String.eqb_eq in H as <-. now exists "".
    + apply orb_true_iff in H as [H|H].
      * apply String.eqb_eq in H as <-. now exists "".
      * destruct (IH H) as [pre ->]. now exists (String c pre).
  - intros [pre ->]. induction pre as [|c pre IH].
    + change ("" +:+ suffix) with suffix.
      destruct suffix; cbn [endswith]; rewrite String.eqb_refl; reflexivity.
    + change (String c pre +:+ suffix) with (String c (pre +:+ suffix)).
      cbn [endswith]. rewrite IH. apply orb_true_r.
Qed.

End PyStrFacts.

(** ** Facts about the relevance filter *)

(** On the empty text only the empty keyword matches. *)
Lemma check_relevance_empty_text_iff (keywords : list string) :
  check_relevance "" keywords = true <-> In "" keywords.
Proof.
  unfold check_relevance. cbn [PyStr.lower].
  induction keywords as [|kw keywords IH]; cbn [existsb In].
  - split; [discriminate | contradiction].
  - rewrite orb_true_iff, IH, PyStrFacts.contains_empty_hay.
    split; intros [H|H]; auto.
    + left. apply PyStrFacts.lower_empty_inv in H. now subst kw.
    + left. now subst kw.
Qed.

(** ** Facts about deduplication and ranking *)

Section DedupFacts.

Implicit Types (results kept : list post_record) (seen : gset string).

Lemma dedup_loop_acc results seen kept :
  dedup_loop results seen kept = kept ++ dedup_loop results seen [].
Proof.
  revert seen kept; induction results as [|r results IH]; intros seen kept.
  - cbn. by rewrite app_nil_r.
  - cbn. case_decide; [apply IH|].
    rewrite IH, (IH _ [r]). by rewrite <- app_assoc.
Qed.

Lemma dedup_loop_cons r results seen :
  dedup_loop (r :: results) seen [] =
    if decide (url r ∈ seen) then dedup_loop results seen []
    else r :: dedup_loop results ({[url r]} ∪ seen) [].
Proof. cbn. case_decide; [done|]. by rewrite dedup_loop_acc. Qed.

Lemma dedup_loop_sublist results seen :
  dedup_loop results seen [] `sublist_of` results.
Proof.
  revert seen; induction results as [|r results IH]; intros seen.
  - constructor.
  - rewrite dedup_loop_cons. case_decide.
    + by apply sublist_cons.
    + by apply sublist_skip.
Qed.

Lemma dedup_loop_unseen results seen r :
  r ∈ dedup_loop results seen [] → url r ∉ seen.
Proof.
  revert seen; induction results as [|r0 results IH]; intros seen.
  - cbn. by intros ?%elem_of_nil.
  - rewrite dedup_loop_cons. case_decide as Hin.
    + apply IH.
    + intros [->|Hr]%elem_of_cons; [done|].
      apply IH in Hr. set_solver.
Qed.

Lemma dedup_loop_NoDup results seen :
  NoDup (url <$> dedup_loop results seen []).
Proof.
  revert seen; induction results as [|r results IH]; intros seen.
  - cbn. constructor.
  - rewrite dedup_loop_cons. case_decide; [apply IH|].
    rewrite fmap_cons. apply NoDup_cons. split; [|apply IH].
    intros (r' & Hu & Hr')%list_elem_of_fmap.
    apply dedup_loop_unseen in Hr'. set_solver.
Qed.

Lemma first_with_url_unseen results seen u :
  first_with_url u (dedup_loop results seen []) =
    if decide (u ∈ seen) then None else first_with_url u results.
Proof.
  revert seen; induction results as [|r results IH]; intros seen.
  - cbn. by case_decide.
  - rewrite dedup_loop_cons. unfold first_with_url in *.
    destruct (decide (url r ∈ seen)) as [Hin|Hin].
    + rewrite IH. cbn [find].
      destruct (String.eqb_spec (url r) u) as [<-|Hne]; [|done].
      by destruct (decide (url r ∈ seen)).
    + cbn [find]. destruct (String.eqb_spec (url r) u) as [<-|Hne].
      * by destruct (decide (url r ∈ seen)).
      * rewrite IH.
        destruct (decide (u ∈ seen)) as [Hu|Hu].
        -- rewrite decide_True; [done | by apply elem_of_union_r].
        -- rewrite decide_False; [done|].
           rewrite elem_of_union, elem_of_singleton.
           intros [E|E]; [by apply Hne | done].
Qed.

Lemma dedup_sublist results : dedup results `sublist_of` results.
Proof. apply dedup_loop_sublist. Qed.

Lemma dedup_NoDup results : NoDup (url <$> dedup results).
Proof. apply dedup_loop_NoDup. Qed.

Lemma dedup_first results u :
  first_with_url u (dedup results) = first_with_url u results.
Proof.
  unfold dedup. rewrite first_with_url_unseen. by rewrite decide_False.
Qed.

(** Every URL collected survives deduplication. *)
Lemma dedup_keeps_urls results r :
  r ∈ results → ∃ r', r' ∈ dedup results ∧ url r' = url r.
Proof.
  intros Hr.
  destruct (first_with_url (url r) (dedup results)) as [r'|] eqn:E.
  - apply find_some in E as [Hin Heq]. exists r'. split.
    + by apply list_elem_of_In.
    + by apply String.eqb_eq.
  - rewrite dedup_first in E. unfold first_with_url in E.
    eapply find_none in E; [|by apply list_elem_of_In].
    by rewrite String.eqb_refl in E.
Qed.

End DedupFacts.

Section SortFacts.

Context {A : Type} (key : A → Z).

Lemma insert_desc_perm x l : insert_desc key x l ≡ₚ x :: l.
Proof.
  induction l as [|y l IH]; cbn; [done|].
  destruct (key x <? key y)%Z; [|done].
  rewrite IH. apply Permutation_swap.
Qed.

Lemma sort_desc_perm l : sort_desc key l ≡ₚ l.
Proof.
  induction l as [|x l IH]; cbn; [done|].
  by rewrite insert_desc_perm, IH.
Qed.

Lemma insert_desc_sorted x l :
  StronglySorted (key_ge key) l → StronglySorted (key_ge key) (insert_desc key x l).
Proof.
  induction 1 as [|y l Hs IH Hy]; cbn.
  - repeat constructor.
  - destruct (Z.ltb_spec (key x) (key y)) as [Hlt|Hge].
    + constructor; [done|].
      rewrite insert_desc_perm. constructor; [unfold key_ge; lia | done].
    + constructor; [by constructor|].
      constructor; [done|].
      eapply Forall_impl; [exact Hy|]. unfold key_ge. intros; lia.
Qed.

Lemma sort_desc_sorted l : StronglySorted (key_ge key) (sort_desc key l).
Proof.
  induction l as [|x l IH]; cbn; [constructor | by apply insert_desc_sorted].
Qed.

(** Stability: inserting moves [x] only past elements of another key. *)
Lemma insert_desc_filter k x l :
  filter (λ a, key a = k) (insert_desc key x l) =
  filter (λ a, key a = k) (x :: l).
Proof.
  induction l as [|y l IH]; cbn [insert_desc]; [done|].
  destruct (Z.ltb_spec (key x) (key y)) as [Hlt|Hge]; [|done].
  rewrite filter_cons, IH, !filter_cons.
  destruct (decide (key y = k)), (decide (key x = k)); try done; lia.
Qed.

Lemma sort_desc_stable k l :
  filter (λ a, key a = k) (sort_desc key l) = filter (λ a, key a = k) l.
Proof.
  induction l as [|x l IH]; cbn [sort_desc]; [done|].
  by rewrite insert_desc_filter, !filter_cons, IH.
Qed.

(** A sorted list is determined by the order of the elements of each key:
    every stable sort returns what [sort_desc] returns. *)
Lemma sorted_stable_unique l1 l2 :
  StronglySorted (key_ge key) l1 → StronglySorted (key_ge key) l2 →
  (∀ k, filter (λ a, key a = k) l1 = filter (λ a, key a = k) l2) →
  l1 = l2.
Proof.
  intros Hs1; revert l2.
  induction Hs1 as [|x l1 Hs1 IH Hx]; intros l2 Hs2 Hf.
  - destruct l2 as [|y l2]; [done|].
    specialize (Hf (key y)). rewrite filter_nil, filter_cons_True in Hf; done.
  - destruct Hs2 as [|y l2 Hs2 Hy].
    + specialize (Hf (key x)).
      rewrite filter_nil, filter_cons_True in Hf; done.
    + assert (Hxy : key x = key y).
      { pose proof (Hf (key x)) as Fx. pose proof (Hf (key y)) as Fy.
        rewrite (filter_cons_True _ x l1) in Fx by done.
        rewrite (filter_cons_True _ y l2) in Fy by done.
        assert (x ∈ y :: l2) as Hin2.
        { eapply (list_elem_of_filter (λ a, key a = key x)).
          rewrite <- Fx. by left. }
        assert (y ∈ x :: l1) as Hin1.
        { eapply (list_elem_of_filter (λ a, key a = key y)).
          rewrite Fy. by left. }
        apply elem_of_cons in Hin1 as [->|Hin1]; [done|].
        apply elem_of_cons in Hin2 as [->|Hin2]; [done|].
        rewrite Forall_forall in Hx, Hy.
        specialize (Hx _ Hin1). specialize (Hy _ Hin2).
        unfold key_ge in *. lia. }
      pose proof (Hf (key x)) as Fx.
      rewrite !filter_cons_True in Fx by done.
      injection Fx as -> Ftl. f_equal. apply IH; [done|].
      intros k. specialize (Hf k). rewrite !filter_cons in Hf.
      destruct (decide (key y = k)); [by injection Hf | done].
Qed.

Lemma sort_desc_unique l sorted :
  StronglySorted (key_ge key) sorted →
  (∀ k, filter (λ a, key a = k) sorted = filter (λ a, key a = k) l) →
  sorted = sort_desc key l.
Proof.
  intros Hs Hf. apply sorted_stable_unique; [done | apply sort_desc_sorted |].
  intros k. by rewrite Hf, sort_desc_stable.
Qed.

End SortFacts.

(** ** Facts about the collection loop *)

Section CollectFacts.

Context (fromtimestamp : Z → outcome PyFmt.datetime).
Context (search : string → string → string → string → Z → Praw.listing).
Context (subreddits time_filter : string) (limit : Z) (sort : string).

#[local] Abbreviation collect_ :=
  (collect fromtimestamp search subreddits time_filter limit sort).
#[local] Abbreviation client kw :=
  (search subreddits kw sort time_filter limit).
#[local] Abbreviation records_of kw :=
  (keyword_records fromtimestamp search subreddits time_filter limit sort kw).
#[local] Abbreviation error_of kw :=
  (keyword_error fromtimestamp search subreddits time_filter limit sort kw).

(** A record was built from a post. *)
#[local] Abbreviation built post r :=
  (search_record fromtimestamp post = Returned r).

(** The inner loop only ever extends the accumulator. *)
Lemma append_records_acc posts acc :
  append_records fromtimestamp posts acc =
    (acc ++ (append_records fromtimestamp posts []).1,
     (append_records fromtimestamp posts []).2).
Proof.
  revert acc; induction posts as [|post posts IH]; intros acc.
  - cbn. by rewrite app_nil_r.
  - cbn [append_records]. destruct (search_record fromtimestamp post) as [r|e].
    + rewrite IH, (IH ([] ++ [r])). cbn [fst snd app].
      by rewrite <- app_assoc.
    + cbn. by rewrite app_nil_r.
Qed.

(** What the inner loop leaves: the records of all the posts, or the
    records of the posts before the first one that could not be built, with
    the message of its exception. *)
Lemma append_records_spec posts :
  ((append_records fromtimestamp posts []).2 = None ∧
   Forall2 (λ post r, built post r) posts
     (append_records fromtimestamp posts []).1) ∨
  (∃ before post after e,
     posts = before ++ post :: after ∧
     search_record fromtimestamp post = Raised e ∧
     (append_records fromtimestamp posts []).2 = Some e ∧
     Forall2 (λ post r, built post r) before
       (append_records fromtimestamp posts []).1).
Proof.
  induction posts as [|post posts IH].
  - left. split; [done | constructor].
  - cbn [append_records].
    destruct (search_record fromtimestamp post) as [r|e] eqn:E.
    + rewrite append_records_acc. cbn [fst snd app].
      destruct IH as [[Herr Hall] | (before & p & after & e & -> & Hp & Herr & Hall)].
      * left. split; [done | by constructor].
      * right. exists (post :: before), p, after, e.
        split; [done|]. split; [done|]. split; [done | by constructor].
    + right. exists [], post, posts, e. cbn.
      split; [done|]. split; [done|]. split; [done | constructor].
Qed.

Lemma try_keyword_acc keyword acc :
  try_keyword fromtimestamp search subreddits time_filter limit sort keyword
    acc = (acc ++ records_of keyword, error_of keyword).
Proof.
  unfold keyword_records, keyword_error, try_keyword.
  rewrite append_records_acc.
  destruct (append_records fromtimestamp (Praw.yielded (client keyword)) [])
    as [rs [e|]]; reflexivity.
Qed.

Lemma collect_cons keyword keywords acc w :
  collect_ (keyword :: keywords) acc w =
    collect_ keywords (acc ++ records_of keyword)
      (match error_of keyword with
       | Some e =>
           run (print_stderr
                  ("Error searching for '" +:+ keyword +:+ "': " +:+ e)) w
       | None => w
       end).
Proof.
  cbn [collect]. rewrite try_keyword_acc. by destruct (error_of keyword).
Qed.

(** The accumulator is only ever extended, and has no influence on what is
    printed. *)
Lemma collect_acc keywords acc w :
  collect_ keywords acc w =
    (acc ++ result (collect_ keywords []) w, run (collect_ keywords []) w).
Proof.
  revert acc w; induction keywords as [|k keywords IH]; intros acc w.
  - cbn. by rewrite app_nil_r.
  - unfold run, result. rewrite !collect_cons.
    rewrite IH, (IH ([] ++ _)). unfold run, result. cbn [fst snd app].
    by rewrite app_assoc.
Qed.

Lemma collect_app keywords1 keywords2 w :
  collect_ (keywords1 ++ keywords2) [] w =
    (result (collect_ keywords1 []) w
       ++ result (collect_ keywords2 []) (run (collect_ keywords1 []) w),
     run (collect_ keywords2 []) (run (collect_ keywords1 []) w)).
Proof.
  revert w; induction keywords1 as [|k keywords1 IH]; intros w.
  - unfold run, result. cbn. by destruct (collect_ keywords2 [] w).
  - unfold run, result. rewrite <- app_comm_cons, !collect_cons.
    rewrite collect_acc, (collect_acc keywords1). unfold run, result.
    rewrite IH. unfold run, result. cbn [fst snd app].
    by rewrite app_assoc.
Qed.

(** The records collected do not depend on the world. *)
Lemma collect_result keywords w :
  result (collect_ keywords []) w =
    concat (map (λ kw, records_of kw) keywords).
Proof.
  revert w; induction keywords as [|k keywords IH]; intros w; [done|].
  unfold result. rewrite collect_cons, collect_acc. cbn [fst concat map].
  by rewrite IH.
Qed.

(** Collecting prints nothing on standard output and touches no file. *)
Lemma collect_frame keywords w :
  stdout (run (collect_ keywords []) w) = stdout w ∧
  files (run (collect_ keywords []) w) = files w.
Proof.
  revert w; induction keywords as [|k keywords IH]; intros w; [done|].
  unfold run. rewrite collect_cons, collect_acc. cbn [snd].
  rewrite !(proj1 (IH _)), !(proj2 (IH _)).
  by destruct (error_of k).
Qed.

Lemma search_reddit_eq keywords w :
  search_reddit fromtimestamp search subreddits keywords time_filter limit
    sort w =
    (sort_desc engagement (dedup (result (collect_ keywords []) w)),
     run (collect_ keywords []) w).
Proof.
  unfold search_reddit, mbind, IO_bind, run, result.
  by destruct (collect_ keywords [] w).
Qed.

(** What one keyword adds and reports, read off the listing: either every
    post was built and the error, if any, is the one the search raised; or
    a post could not be built, and the records are those of the posts
    before it and the error is its own. *)
Lemma keyword_outcome keyword :
  (error_of keyword = Praw.raised (client keyword) ∧
   Forall2 (λ post r, built post r) (Praw.yielded (client keyword))
     (records_of keyword)) ∨
  (∃ before post after e,
     Praw.yielded (client keyword) = before ++ post :: after ∧
     search_record fromtimestamp post = Raised e ∧
     error_of keyword = Some e ∧
     Forall2 (λ post r, built post r) before (records_of keyword)).
Proof.
  unfold keyword_records, keyword_error, try_keyword.
  destruct (append_records_spec (Praw.yielded (client keyword)))
    as [[Herr Hall] | (before & p & after & e & Hy & Hp & Herr & Hall)].
  - left.
    destruct (append_records fromtimestamp (Praw.yielded (client keyword)) [])
      as [rs failed]. cbn [fst snd] in *. by subst failed.
  - right. exists before, p, after, e.
    destruct (append_records fromtimestamp (Praw.yielded (client keyword)) [])
      as [rs failed]. cbn [fst snd] in *. by subst failed.
Qed.

(** A search that raises always ends the work on its keyword with an error:
    its own, or that of a record that could not be built before. *)
Lemma keyword_error_of_raised keyword e0 :
  Praw.raised (client keyword) = Some e0 → ∃ e, error_of keyword = Some e.
Proof.
  intros Hraised.
  destruct (keyword_outcome keyword)
    as [[Herr _] | (before & p & after & e & _ & _ & Herr & _)].
  - exists e0. by rewrite Herr.
  - by exists e.
Qed.

End CollectFacts.

(** ** Facts about the result formatter *)

Section OutputFacts.

Implicit Types (results : list post_record) (w : world) (f : string).

Lemma endswith_nonempty f suffix :
  PyStr.endswith f suffix = true → suffix ≠ "" → f ≠ "".
Proof.
  intros H Hs ->. cbn in H. rewrite orb_false_r in H.
  destruct suffix; [done | discriminate H].
Qed.

Lemma path_given_nonempty f : f ≠ "" → path_given (Some f) = Some f.
Proof. by destruct f. Qed.

Lemma slice_to_nonneg {A} (l : list A) (n : Z) :
  (0 ≤ n)%Z → slice_to l n = take (Z.to_nat n) l.
Proof. intros H. unfold slice_to. by rewrite (proj2 (Z.leb_le 0 n) H). Qed.

Lemma displayed_positive results (cap : Z) :
  (0 < cap)%Z → displayed results (Some cap) = take (Z.to_nat cap) results.
Proof.
  intros H. unfold displayed, limit_given.
  destruct (Z.eqb_spec cap 0) as [->|_]; [lia|].
  apply slice_to_nonneg. lia.
Qed.

Lemma displayed_none results : displayed results None = results.
Proof. reflexivity. Qed.

(** What each [print] does to the world. *)
Lemma run_print s w :
  run (print s) w =
    World (stdout w +:+ s +:+ String Json.newline "") (stderr w) (files w).
Proof. reflexivity. Qed.

Lemma run_print_stderr s w :
  run (print_stderr s) w =
    World (stdout w) (stderr w +:+ s +:+ String Json.newline "") (files w).
Proof. reflexivity. Qed.

Lemma run_bind {A B} (m : IO A) (k : A → IO B) w :
  run (m ≫= k) w = run (k (result m w)) (run m w).
Proof. unfold run, result, mbind, IO_bind. by destruct (m w). Qed.

(** The text branch only appends to standard output. *)
Lemma print_text_records_frame results w :
  ∃ out, run (print_text_records results) w
         = World (stdout w +:+ out) (stderr w) (files w).
Proof.
  revert w; induction results as [|r results IH]; intros w.
  - exists "". destruct w. cbn. by rewrite PyStrFacts.app_nil_r.
  - cbn [print_text_records]. rewrite run_bind.
    destruct (IH (run (print_text_record r) w)) as [out ->].
    unfold print_text_record. rewrite !run_bind, !run_print.
    cbn [stdout stderr files].
    eexists. rewrite !PyStrFacts.app_assoc. reflexivity.
Qed.

(** Writing a file that can be opened, and one that cannot. *)
Lemma write_file_opens open_error f content w :
  open_error f = None →
  write_file open_error f content w =
    (Returned tt,
     World (stdout w) (stderr w) (<[f := content]> (files w))).
Proof. intros H. unfold write_file. by rewrite H. Qed.

Lemma write_file_raises open_error f content w e :
  open_error f = Some e → write_file open_error f content w = (Raised e, w).
Proof. intros H. unfold write_file. by rewrite H. Qed.

(** Write the file, then confirm: the two steps of the file branches. *)
Lemma save_and_confirm_opens open_error f content message w :
  open_error f = None →
  and_then (write_file open_error f content)
    (λ _, print_stderr message ;; mret (Returned tt)) w =
    (Returned tt,
     World (stdout w) (stderr w +:+ message +:+ String Json.newline "")
       (<[f := content]> (files w))).
Proof.
  intros H. unfold and_then, mbind, IO_bind.
  by rewrite write_file_opens.
Qed.

Lemma save_and_confirm_raises open_error f content message w e :
  open_error f = Some e →
  and_then (write_file open_error f content)
    (λ _, print_stderr message ;; mret (Returned tt)) w = (Raised e, w).
Proof.
  intros H. unfold and_then, mbind, IO_bind.
  by rewrite (write_file_raises _ _ _ _ e).
Qed.

(** With a path that can be opened, the JSON and the CSV branch write the
    file and confirm on the error stream; standard output is left alone. *)
Lemma output_results_json_file open_error results f limit w :
  f ≠ "" → open_error f = None →
  output_results open_error results "json" (Some f) limit w =
    (Returned tt,
     World (stdout w)
       (stderr w +:+ saved_message (displayed results limit) f
        +:+ String Json.newline "")
       (<[f := Json.dumps (Some 2)
                 (json_of_results (displayed results limit))]>
          (files w))).
Proof.
  intros Hf Hopen. unfold output_results. cbn [String.eqb Ascii.eqb Bool.eqb].
  rewrite path_given_nonempty by done. by apply save_and_confirm_opens.
Qed.

Lemma output_results_csv_file open_error results output_format f limit w :
  f ≠ "" → open_error f = None → output_format ≠ "json" →
  output_format = "csv" ∨ PyStr.endswith f ".csv" = true →
  output_results open_error results output_format (Some f) limit w =
    (Returned tt,
     World (stdout w)
       (stderr w +:+ saved_message (displayed results limit) f
        +:+ String Json.newline "")
       (<[f := csv_render (displayed results limit)]> (files w))).
Proof.
  intros Hf Hopen Hj Hc. unfold output_results.
  rewrite (proj2 (String.eqb_neq _ _) Hj), path_given_nonempty by done.
  destruct Hc as [-> | ->];
    [|rewrite orb_true_r]; by apply save_and_confirm_opens.
Qed.

(** With a path that cannot be opened, both branches end with the exception
    and leave the world as it was. *)
Lemma output_results_json_raises open_error results f limit w e :
  f ≠ "" → open_error f = Some e →
  output_results open_error results "json" (Some f) limit w = (Raised e, w).
Proof.
  intros Hf Hopen. unfold output_results. cbn [String.eqb Ascii.eqb Bool.eqb].
  rewrite path_given_nonempty by done. by apply save_and_confirm_raises.
Qed.

Lemma output_results_csv_raises open_error results output_format f limit w e :
  f ≠ "" → open_error f = Some e → output_format ≠ "json" →
  output_format = "csv" ∨ PyStr.endswith f ".csv" = true →
  output_results open_error results output_format (Some f) limit w
    = (Raised e, w).
Proof.
  intros Hf Hopen Hj Hc. unfold output_results.
  rewrite (proj2 (String.eqb_neq _ _) Hj), path_given_nonempty by done.
  destruct Hc as [-> | ->];
    [|rewrite orb_true_r]; by apply save_and_confirm_raises.
Qed.

(** Without a path nothing is written to a file or to the error stream. *)
Lemma output_results_no_file open_error results output_format limit w :
  ∃ out, run (output_results open_error results output_format None limit) w
         = World (stdout w +:+ out) (stderr w) (files w).
Proof.
  unfold output_results. cbn [path_given].
  destruct (String.eqb output_format "json"); [by eexists|].
  rewrite orb_false_r. destruct (String.eqb output_format "csv"); [by eexists|].
  rewrite !run_bind, run_print.
  edestruct (print_text_records_frame (displayed results limit))
    as [out ->].
  unfold run at 1. cbn [snd mret IO_ret stdout stderr files]. eexists.
  rewrite !PyStrFacts.app_assoc. reflexivity.
Qed.

(** In the text branch the path is not looked at. *)
Lemma output_results_text_ignores_file open_error results f limit :
  PyStr.endswith f ".csv" = false →
  output_results open_error results "text" (Some f) limit
    = output_results open_error results "text" None limit.
Proof.
  intros Hext. unfold output_results. cbn [String.eqb Ascii.eqb Bool.eqb].
  destruct f as [|c f]; [reflexivity|].
  cbn [path_given orb]. by rewrite Hext.
Qed.

End OutputFacts.

(** ** Facts about timestamps *)

Section TimeFacts.

Import PyFmt.
#[local] Open Scope Z_scope.

Lemma digit_char_inj (a b : Z) :
  0 ≤ a < 10 → 0 ≤ b < 10 → digit_char a = digit_char b → a = b.
Proof.
  intros Ha Hb H. unfold digit_char in H.
  apply (f_equal N_of_ascii) in H.
  rewrite !N_ascii_embedding in H by lia. lia.
Qed.

Lemma string_cons_inj (c c' : ascii) (s s' : string) :
  String c s = String c' s' → c = c' ∧ s = s'.
Proof. intros H. by injection H. Qed.

(** Padding commutes with what follows. *)
Lemma zfill_acc_app (w : nat) (n : Z) (acc s : string) :
  zfill_acc w n acc +:+ s = zfill_acc w n (acc +:+ s).
Proof.
  revert n acc; induction w as [|w IH]; intros n acc; cbn; [done|].
  by rewrite IH.
Qed.

Lemma zfill_app (w : nat) (n : Z) (s : string) :
  zfill w n +:+ s = zfill_acc w n s.
Proof. unfold zfill. by rewrite zfill_acc_app. Qed.

(** A padded number determines the number and what follows it. *)
Lemma zfill_acc_inj (w : nat) (n m : Z) (acc acc' : string) :
  0 ≤ n < 10 ^ Z.of_nat w → 0 ≤ m < 10 ^ Z.of_nat w →
  zfill_acc w n acc = zfill_acc w m acc' → n = m ∧ acc = acc'.
Proof.
  revert n m acc acc'; induction w as [|w IH]; intros n m acc acc' Hn Hm H.
  - cbn in *. split; [lia | done].
  - cbn [zfill_acc] in H.
    rewrite Nat2Z.inj_succ, Z.pow_succ_r in Hn, Hm by lia.
    apply IH in H as [Hq Hr].
    + apply string_cons_inj in Hr as [Hd Hacc]. split; [|done].
      apply digit_char_inj in Hd; [|apply Z.mod_pos_bound; lia..].
      rewrite (Z.div_mod n 10), (Z.div_mod m 10) by lia. congruence.
    + split; [apply Z.div_pos; lia | apply Z.div_lt_upper_bound; lia].
    + split; [apply Z.div_pos; lia | apply Z.div_lt_upper_bound; lia].
Qed.

Lemma isoformat_eq (d : datetime) :
  isoformat d =
  zfill_acc 4 (year d) (String "-"
    (zfill_acc 2 (month d) (String "-"
      (zfill_acc 2 (day d) (String "T"
        (zfill_acc 2 (hour d) (String ":"
          (zfill_acc 2 (minute d) (String ":"
            (zfill_acc 2 (second d)
              (if microsecond d =? 0 then ""
               else String "." (zfill_acc 6 (microsecond d) "")))))))))))).
Proof.
  unfold isoformat. rewrite !zfill_app.
  destruct (microsecond d =? 0); [done|].
  by rewrite <- (zfill_app 6).
Qed.

(** Two datetimes with the same ISO text are the same. *)
Lemma isoformat_inj (d1 d2 : datetime) :
  valid_datetime d1 → valid_datetime d2 →
  isoformat d1 = isoformat d2 → d1 = d2.
Proof.
  intros (Hy1 & Hmo1 & Hd1 & Hh1 & Hmi1 & Hs1 & Hu1)
         (Hy2 & Hmo2 & Hd2 & Hh2 & Hmi2 & Hs2 & Hu2) H.
  rewrite !isoformat_eq in H.
  apply zfill_acc_inj in H as [Ey H]; [|cbn; lia..].
  apply string_cons_inj in H as [_ H].
  apply zfill_acc_inj in H as [Emo H]; [|cbn; lia..].
  apply string_cons_inj in H as [_ H].
  apply zfill_acc_inj in H as [Ed H]; [|cbn; lia..].
  apply string_cons_inj in H as [_ H].
  apply zfill_acc_inj in H as [Eh H]; [|cbn; lia..].
  apply string_cons_inj in H as [_ H].
  apply zfill_acc_inj in H as [Emi H]; [|cbn; lia..].
  apply string_cons_inj in H as [_ H].
  apply zfill_acc_inj in H as [Es H]; [|cbn; lia..].
  assert (Eu : microsecond d1 = microsecond d2).
  { destruct (Z.eqb_spec (microsecond d1) 0) as [E1|N1],
             (Z.eqb_spec (microsecond d2) 0) as [E2|N2];
      [congruence | discriminate H | discriminate H |].
    apply string_cons_inj in H as [_ H].
    apply zfill_acc_inj in H as [Eu _]; [done | cbn; lia..]. }
  destruct d1, d2; cbn in *; congruence.
Qed.

End TimeFacts.

(** ** Facts about JSON text: reading back what was written *)

Section JsonFacts.

Import Json.

(** Reading one escaped character gives the character back. *)
Lemma scan_string_escape_char (c : ascii) (t : string) :
  scan_string (escape_char c +:+ t) =
    match scan_string t with
    | Some (u, rest) => Some (String c u, rest)
    | None => None
    end.
Proof.
  destruct c as [[|] [|] [|] [|] [|] [|] [|] [|]]; reflexivity.
Qed.

Lemma scan_string_escape (s rest : string) :
  scan_string (escape s +:+ String dquote rest) = Some (s, rest).
Proof.
  induction s as [|c s IH]; [reflexivity|].
  cbn [escape]. rewrite PyStrFacts.app_assoc, scan_string_escape_char.
  by rewrite IH.
Qed.

Lemma encode_string_app (s rest : string) :
  encode_string s +:+ rest = String dquote (escape s +:+ String dquote rest).
Proof. unfold encode_string. cbn. by rewrite PyStrFacts.app_assoc. Qed.

(** *** Integers *)

Lemma scan_digits_uint (d : Decimal.uint) (rest : string) :
  starts_with_digit rest = false →
  scan_digits (NilEmpty.string_of_uint d +:+ rest)
    = (NilEmpty.string_of_uint d, rest).
Proof.
  intros Hrest.
  induction d as [|d IH|d IH|d IH|d IH|d IH|d IH|d IH|d IH|d IH|d IH];
    cbn [NilEmpty.string_of_uint];
    try (cbn; rewrite IH; reflexivity).
  destruct rest as [|c rest]; [reflexivity|].
  cbn in *. by rewrite Hrest.
Qed.

(** The decimal digits of a positive number do not start with [0]. *)
Lemma to_uint_head (p : positive) :
  match Pos.to_uint p with
  | Decimal.Nil | Decimal.D0 _ => False
  | _ => True
  end.
Proof.
  pose proof (DecimalPos.Unsigned.to_of (Pos.to_uint p)) as Hn.
  rewrite DecimalPos.Unsigned.of_to in Hn. cbn [N.to_uint] in Hn.
  pose proof (DecimalPos.Unsigned.to_uint_nonzero p) as Hz.
  destruct (Pos.to_uint p) as [|u| | | | | | | | |] eqn:E; try done.
  rewrite DecimalFacts.unorm_D0 in Hn. unfold Decimal.unorm in Hn.
  pose proof (DecimalFacts.nb_digits_nzhead u) as Hlen.
  destruct (Decimal.nzhead u) as [|u0| | | | | | | | |] eqn:Eu;
    try discriminate Hn.
  - by rewrite Hn in Hz.
  - injection Hn as ->. cbn in Hlen. lia.
Qed.

Lemma string_of_uint_pos (p : positive) :
  NilZero.string_of_uint (Pos.to_uint p)
    = NilEmpty.string_of_uint (Pos.to_uint p).
Proof.
  pose proof (to_uint_head p) as H. by destruct (Pos.to_uint p).
Qed.

Lemma scan_integer_uint_pos (sign : string) (p : positive) (rest : string) :
  starts_with_digit rest = false →
  scan_digits (NilEmpty.string_of_uint (Pos.to_uint p) +:+ rest)
    = (NilEmpty.string_of_uint (Pos.to_uint p), rest) ∧
  ∃ c d, NilEmpty.string_of_uint (Pos.to_uint p) = String c d ∧
         (N_of_ascii c =? 45)%N = false ∧ (N_of_ascii c =? 48)%N = false ∧
         is_digit c = true.
Proof.
  intros Hrest. split; [by apply scan_digits_uint|].
  pose proof (to_uint_head p) as H.
  destruct (Pos.to_uint p); try done; cbn [NilEmpty.string_of_uint];
    eexists _, _; (split; [reflexivity|]); done.
Qed.

Lemma scan_integer_str (z : Z) (rest : string) :
  starts_with_digit rest = false →
  scan_integer (PyFmt.str_of_Z z +:+ rest) = Some (PyFmt.str_of_Z z, rest).
Proof.
  intros Hrest. unfold PyFmt.str_of_Z.
  destruct z as [|p|p]; cbn [Z.to_int NilZero.string_of_int].
  - reflexivity.
  - rewrite string_of_uint_pos.
    destruct (scan_integer_uint_pos "" p rest Hrest)
      as (Hscan & c & d & E & H45 & H48 & Hdig).
    rewrite E in *. cbn [String.append] in *. unfold scan_integer.
    rewrite H45, H48, Hdig.
    cbn [scan_digits] in Hscan. rewrite Hdig in Hscan.
    destruct (scan_digits (d +:+ rest)) as [d' rest'].
    by injection Hscan as -> ->.
  - rewrite string_of_uint_pos.
    destruct (scan_integer_uint_pos "-" p rest Hrest)
      as (Hscan & c & d & E & H45 & H48 & Hdig).
    rewrite E in *. cbn [String.append] in *. unfold scan_integer.
    change (N_of_ascii "-" =? 45)%N with true. cbn iota.
    rewrite H48, Hdig.
    cbn [scan_digits] in Hscan. rewrite Hdig in Hscan.
    destruct (scan_digits (d +:+ rest)) as [d' rest'].
    by injection Hscan as -> ->.
Qed.

Lemma int_of_string_str (z : Z) :
  NilZero.int_of_string (PyFmt.str_of_Z z) = Some (Z.to_int z).
Proof.
  unfold PyFmt.str_of_Z. apply NilZero.isi.
  - destruct z; cbn; try discriminate.
    intros [= H]. by apply (DecimalPos.Unsigned.to_uint_nonnil p).
  - destruct z; cbn; try discriminate.
    intros [= H]. by apply (DecimalPos.Unsigned.to_uint_nonnil p).
Qed.

(** Reading a printed integer gives the integer back, when what follows can
    not continue a number. *)
Lemma scan_number_str (z : Z) (rest : string) :
  starts_with_digit rest = false → float_follows rest = false →
  scan_number (PyFmt.str_of_Z z +:+ rest) = Some (z, rest).
Proof.
  intros Hdig Hfloat. unfold scan_number.
  rewrite scan_integer_str by done. cbn [mbind option_bind].
  rewrite Hfloat, int_of_string_str. cbn [mbind option_bind].
  by rewrite DecimalZ.of_to.
Qed.

(** *** Values *)

Lemma parse_value_string (n : nat) (s rest : string) :
  parse_value (S n) (encode_string s +:+ rest) = Some (JStr s, rest).
Proof.
  rewrite encode_string_app. cbn [parse_value].
  change (N_of_ascii dquote =? 34)%N with true. cbn iota.
  by rewrite scan_string_escape.
Qed.

Lemma scan_integer_head (c : ascii) (s : string) (r : string * string) :
  scan_integer (String c s) = Some r →
  N_of_ascii c = 45%N ∨ is_digit c = true.
Proof.
  unfold scan_integer. destruct (N.eqb_spec (N_of_ascii c) 45) as [E|_].
  - by left.
  - destruct (N_of_ascii c =? 48)%N eqn:E48.
    + intros _. right. apply N.eqb_eq in E48. unfold is_digit. by rewrite E48.
    + destruct (is_digit c); [by right | discriminate].
Qed.

Lemma parse_value_number_head (n : nat) (c : ascii) (s : string) :
  N_of_ascii c = 45%N ∨ is_digit c = true →
  parse_value (S n) (String c s) =
    '(z, rest) ← scan_number (String c s); Some (JInt z, rest).
Proof.
  destruct c as [[|] [|] [|] [|] [|] [|] [|] [|]];
    intros [H|H]; try discriminate H; reflexivity.
Qed.

Lemma parse_value_int (n : nat) (z : Z) (rest : string) :
  starts_with_digit rest = false → float_follows rest = false →
  parse_value (S n) (PyFmt.str_of_Z z +:+ rest) = Some (JInt z, rest).
Proof.
  intros Hdig Hfloat.
  pose proof (scan_integer_str z rest Hdig) as Hint.
  pose proof (scan_number_str z rest Hdig Hfloat) as Hnum.
  destruct (PyFmt.str_of_Z z +:+ rest) as [|c s]; [discriminate Hint|].
  rewrite parse_value_number_head by (by eapply scan_integer_head).
  by rewrite Hnum.
Qed.

(** *** White space before a value *)

Lemma skip_ws_encode_string (s rest : string) :
  skip_ws (encode_string s +:+ rest) = encode_string s +:+ rest.
Proof. by rewrite encode_string_app. Qed.

Lemma is_ws_number_head (c : ascii) :
  N_of_ascii c = 45%N ∨ is_digit c = true → is_ws c = false.
Proof.
  destruct c as [[|] [|] [|] [|] [|] [|] [|] [|]];
    intros [H|H]; try discriminate H; reflexivity.
Qed.

Lemma skip_ws_int (z : Z) (rest : string) :
  starts_with_digit rest = false →
  skip_ws (PyFmt.str_of_Z z +:+ rest) = PyFmt.str_of_Z z +:+ rest.
Proof.
  intros Hdig. pose proof (scan_integer_str z rest Hdig) as Hint.
  destruct (PyFmt.str_of_Z z +:+ rest) as [|c s]; [done|].
  cbn [skip_ws]. by rewrite is_ws_number_head by (by eapply scan_integer_head).
Qed.

(** *** Members of an object *)

(** A member that is followed by a comma and, on the next line, by another
    member. *)
Lemma parse_members_more (n : nat) (k X : string) (v : value)
    (k' Y : string) :
  skip_ws X = X →
  parse_value n X =
    Some (v, String "," (String newline
               (String " " (String " " (String " " (String " "
                  (encode_string k' +:+ Y))))))) →
  parse_members (S n) (encode_string k +:+ key_separator +:+ X) =
    '(ms, rest) ← parse_members n (encode_string k' +:+ Y);
    Some ((k, v) :: ms, rest).
Proof.
  intros HX Hv. rewrite encode_string_app. cbn [parse_members].
  change (N_of_ascii dquote =? 34)%N with true. cbn iota.
  rewrite scan_string_escape. cbn [mbind option_bind].
  change (skip_ws (key_separator +:+ X)) with (String ":" (String " " X)).
  cbn iota. change (N_of_ascii ":" =? 58)%N with true. cbn iota.
  change (skip_ws (String " " X)) with (skip_ws X). rewrite HX, Hv.
  cbn [mbind option_bind].
  change (skip_ws (String "," ?t)) with (String "," t). cbn iota.
  change (N_of_ascii "," =? 125)%N with false.
  change (N_of_ascii "," =? 44)%N with true. cbn iota.
  change (skip_ws (String newline (String " " (String " " (String " "
            (String " " (encode_string k' +:+ Y)))))))
    with (skip_ws (encode_string k' +:+ Y)).
  by rewrite skip_ws_encode_string.
Qed.

(** The last member, followed on the next line by the closing brace. *)
Lemma parse_members_last (n : nat) (k X : string) (v : value)
    (rest : string) :
  skip_ws X = X →
  parse_value n X =
    Some (v, String newline (String " " (String " " (String "}" rest)))) →
  parse_members (S n) (encode_string k +:+ key_separator +:+ X) =
    Some ([(k, v)], rest).
Proof.
  intros HX Hv. rewrite encode_string_app. cbn [parse_members].
  change (N_of_ascii dquote =? 34)%N with true. cbn iota.
  rewrite scan_string_escape. cbn [mbind option_bind].
  change (skip_ws (key_separator +:+ X)) with (String ":" (String " " X)).
  cbn iota. change (N_of_ascii ":" =? 58)%N with true. cbn iota.
  change (skip_ws (String " " X)) with (skip_ws X). rewrite HX, Hv.
  reflexivity.
Qed.

(** An opening brace followed, on the next line, by a member. *)
Lemma parse_value_object_open (n : nat) (k Y : string) :
  parse_value (S n)
    (String "{" (String newline
       (String " " (String " " (String " " (String " "
          (encode_string k +:+ Y))))))) =
    '(ms, rest) ← parse_members n (encode_string k +:+ Y);
    Some (JObj (dict_of_pairs ms), rest).
Proof. rewrite encode_string_app. reflexivity. Qed.

(** One member with a text value, or with an integer value, that is not the
    last of its object. *)
#[local] Ltac text_member :=
  erewrite parse_members_more;
  [| apply skip_ws_encode_string | apply parse_value_string].
#[local] Ltac int_member :=
  erewrite parse_members_more;
  [| by apply skip_ws_int | by apply parse_value_int].

Lemma parse_record_object (n : nat) (r : post_record) (rest : string) :
  parse_value (9 + n) (encode (Some 2) 1 (json_of_record r) +:+ rest)
    = Some (json_of_record r, rest).
Proof.
  unfold json_of_record.
  cbn [encode newline_indent item_separator spaces Nat.mul Nat.add].
  rewrite !PyStrFacts.app_assoc. cbn [String.append].
  rewrite parse_value_object_open.
  do 2 text_member. do 2 int_member. do 2 text_member.
  erewrite parse_members_last;
    [| apply skip_ws_encode_string | apply parse_value_string].
  reflexivity.
Qed.

(** *** Arrays of records *)

Lemma encode_results_cons (r : post_record) (results : list post_record) :
  dumps (Some 2) (json_of_results (r :: results)) =
    String "[" (String newline (String " " (String " "
      (encode (Some 2) 1 (json_of_record r) +:+ more_items results
       +:+ String newline "]")))).
Proof.
  unfold dumps, json_of_results. cbn [map encode].
  cbn [newline_indent spaces Nat.mul Nat.add String.append].
  do 6 f_equal.
  induction results as [|y results IH]; [reflexivity|].
  cbn [map more_items newline_indent spaces Nat.mul Nat.add String.append].
  by rewrite IH.
Qed.

Lemma skip_ws_record (r : post_record) (rest : string) :
  skip_ws (encode (Some 2) 1 (json_of_record r) +:+ rest)
    = encode (Some 2) 1 (json_of_record r) +:+ rest.
Proof. reflexivity. Qed.

Lemma parse_items_records (results : list post_record) (r : post_record)
    (n : nat) (rest : string) :
  parse_items (length results + 10 + n)
    (encode (Some 2) 1 (json_of_record r) +:+ more_items results
     +:+ String newline (String "]" rest))
  = Some (map json_of_record (r :: results), rest).
Proof.
  revert r; induction results as [|y results IH]; intros r.
  - cbn [more_items String.append].
    change (length [] + 10 + n)%nat with (S (9 + n)).
    cbn [parse_items]. rewrite parse_record_object. reflexivity.
  - cbn [more_items newline_indent spaces Nat.mul Nat.add].
    rewrite !PyStrFacts.app_assoc. cbn [String.append].
    replace (length (y :: results) + 10 + n)%nat
      with (S (9 + (length results + 1 + n)))%nat by (cbn [length]; lia).
    cbn [parse_items]. rewrite parse_record_object. cbn [mbind option_bind].
    change (skip_ws (String "," ?t)) with (String "," t). cbn iota.
    change (N_of_ascii "," =? 93)%N with false.
    change (N_of_ascii "," =? 44)%N with true. cbn iota.
    change (skip_ws (String newline (String " " (String " " ?t))))
      with (skip_ws t).
    rewrite skip_ws_record.
    replace (9 + (length results + 1 + n))%nat
      with (length results + 10 + n)%nat by lia.
    by rewrite IH.
Qed.

Lemma parse_value_array_open (n : nat) (r : post_record) (X : string) :
  parse_value (S n)
    (String "[" (String newline (String " " (String " "
       (encode (Some 2) 1 (json_of_record r) +:+ X))))) =
    '(vs, rest) ← parse_items n (encode (Some 2) 1 (json_of_record r) +:+ X);
    Some (JArr vs, rest).
Proof. reflexivity. Qed.

Lemma parse_value_empty_array (n : nat) (rest : string) :
  parse_value (S n) (String "[" (String "]" rest)) = Some (JArr [], rest).
Proof. reflexivity. Qed.

Lemma length_more_items (results : list post_record) :
  length results ≤ String.length (more_items results).
Proof.
  induction results as [|y results IH]; [done|].
  cbn [more_items length]. rewrite !PyStrFacts.length_app.
  cbn [String.length]. lia.
Qed.

(** Reading back the text written for a sequence of records, whatever
    white space follows it. *)
Lemma loads_dumps_results (results : list post_record) (trailing : string) :
  skip_ws trailing = "" →
  loads (dumps (Some 2) (json_of_results results) +:+ trailing)
    = Some (json_of_results results).
Proof.
  intros Htrail. unfold loads. destruct results as [|r results].
  - change (dumps (Some 2) (json_of_results []) +:+ trailing)
      with (String "[" (String "]" trailing)).
    replace (2 * String.length (String "[" (String "]" trailing)) + 2)%nat
      with (S (2 * String.length (String "[" (String "]" trailing)) + 1))
      by lia.
    change (skip_ws (String "[" ?t)) with (String "[" t).
    rewrite parse_value_empty_array. cbn [mbind option_bind].
    by rewrite Htrail.
  - rewrite encode_results_cons. cbn [String.append].
    rewrite !PyStrFacts.app_assoc. cbn [String.append].
    change (skip_ws (String "[" ?t)) with (String "[" t).
    set (text := String "[" _).
    assert (∃ n, (2 * String.length text + 2 = S (length results + 10 + n))%nat)
      as [n ->].
    { exists (2 * String.length text + 2 - 11 - length results)%nat.
      pose proof (length_more_items results) as Hlen.
      subst text. cbn [String.length]. rewrite !PyStrFacts.length_app.
      cbn [String.length]. lia. }
    subst text. rewrite parse_value_array_open, parse_items_records.
    cbn [mbind option_bind]. by rewrite Htrail.
Qed.

End JsonFacts.

(** ** Facts about lower-casing, splitting and stripping *)

Section TextFacts.

Import PyStr PyText.

Lemma lower_app (a b : string) : lower (a +:+ b) = lower a +:+ lower b.
Proof.
  induction a as [|c a IH]; [reflexivity|].
  cbn [String.append lower]. by rewrite IH.
Qed.

Lemma lower_char_idem (c : ascii) : lower_char (lower_char c) = lower_char c.
Proof. destruct c as [[|] [|] [|] [|] [|] [|] [|] [|]]; reflexivity. Qed.

Lemma lower_idem (s : string) : lower (lower s) = lower s.
Proof.
  induction s as [|c s IH]; [reflexivity|].
  cbn [lower]. by rewrite lower_char_idem, IH.
Qed.

Lemma substring_of_context (needle hay pre post : string) :
  substring_of needle hay → substring_of needle (pre +:+ hay +:+ post).
Proof.
  intros (a & b & ->). exists (pre +:+ a), (b +:+ post).
  by rewrite !PyStrFacts.app_assoc.
Qed.

Lemma contains_empty_needle (hay : string) : contains "" hay = true.
Proof. by destruct hay. Qed.

(** The relevance test sees the text and the keywords only through their
    lower case. *)
Lemma check_relevance_lower (text : string) (keywords : list string) :
  check_relevance text keywords =
  existsb (λ kw, contains kw (lower text)) (map lower keywords).
Proof.
  unfold check_relevance. induction keywords as [|kw keywords IH]; [done|].
  cbn [existsb map]. by rewrite IH.
Qed.

Lemma check_relevance_spec (text : string) (keywords : list string) :
  check_relevance text keywords = true ↔
  ∃ kw, In kw keywords ∧ substring_of (lower kw) (lower text).
Proof.
  unfold check_relevance. rewrite existsb_exists.
  split; intros (kw & Hin & Hkw); exists kw; (split; [exact Hin|]);
    by apply PyStrFacts.contains_spec.
Qed.

(** The empty keyword is found in every text. *)
Lemma check_relevance_empty_keyword (text : string) (keywords : list string) :
  In "" keywords → check_relevance text keywords = true.
Proof.
  intros Hin. unfold check_relevance. apply existsb_exists.
  exists "". split; [done|]. apply contains_empty_needle.
Qed.

(** *** Splitting at commas *)

Lemma split_comma_nonempty (s : string) : split_comma s ≠ [].
Proof.
  destruct s as [|c s]; [done|]. cbn [split_comma].
  destruct (N_of_ascii c =? 44)%N; [done|]. by destruct (split_comma s).
Qed.

Lemma join_cons_char (c : ascii) (piece : string) (pieces : list string) :
  join "," (String c piece :: pieces) = String c (join "," (piece :: pieces)).
Proof. by destruct pieces. Qed.

(** [",".join(s.split(","))] is [s]. *)
Lemma split_comma_join (s : string) : join "," (split_comma s) = s.
Proof.
  induction s as [|c s IH]; [reflexivity|]. cbn [split_comma].
  destruct (N.eqb_spec (N_of_ascii c) 44) as [Hc|Hc].
  - pose proof (split_comma_nonempty s) as Hne.
    destruct (split_comma s) as [|piece pieces] eqn:E; [done|].
    change (join "," ("" :: piece :: pieces))
      with (String "," (join "," (piece :: pieces))).
    rewrite IH. f_equal.
    apply (f_equal ascii_of_N) in Hc. by rewrite ascii_N_embedding in Hc.
  - pose proof (split_comma_nonempty s) as Hne.
    destruct (split_comma s) as [|piece pieces] eqn:E; [done|].
    by rewrite join_cons_char, IH.
Qed.

Lemma split_comma_length (s : string) :
  length (split_comma s) = S (count_commas s).
Proof.
  induction s as [|c s IH]; [reflexivity|].
  cbn [split_comma count_commas]. unfold is_comma.
  destruct (N_of_ascii c =? 44)%N; cbn [length]; [by rewrite IH|].
  pose proof (split_comma_nonempty s) as Hne.
  destruct (split_comma s) as [|piece pieces]; [done|].
  cbn [length] in *. lia.
Qed.

Lemma split_comma_no_comma (s : string) :
  Forall (λ piece, count_commas piece = 0) (split_comma s).
Proof.
  induction s as [|c s IH]; [by repeat constructor|].
  cbn [split_comma]. destruct (N_of_ascii c =? 44)%N eqn:Hc.
  - by constructor.
  - pose proof (split_comma_nonempty s) as Hne.
    destruct (split_comma s) as [|piece pieces]; [done|].
    apply Forall_cons in IH as [Hp Hps]. constructor; [|done].
    cbn [count_commas]. unfold is_comma. by rewrite Hc.
Qed.

Lemma split_comma_trailing (s : string) :
  split_comma (s +:+ ",") = split_comma s ++ [""].
Proof.
  induction s as [|c s IH]; [reflexivity|].
  cbn [String.append split_comma]. rewrite IH.
  destruct (N_of_ascii c =? 44)%N; [done|].
  pose proof (split_comma_nonempty s) as Hne.
  by destruct (split_comma s).
Qed.

(** *** Stripping white space *)

Lemma is_space_not_comma (c : ascii) : is_space c = true → is_comma c = false.
Proof.
  destruct c as [[|] [|] [|] [|] [|] [|] [|] [|]]; intros H;
    try discriminate H; reflexivity.
Qed.

Lemma lstrip_first (s : string) (c : ascii) :
  first_char (lstrip s) = Some c → is_space c = false.
Proof.
  induction s as [|a s IH]; [done|]. cbn [lstrip].
  destruct (is_space a) eqn:Ha; [done|]. cbn. by intros [= <-].
Qed.

Lemma rstrip_last (s : string) (c : ascii) :
  last_char (rstrip s) = Some c → is_space c = false.
Proof.
  induction s as [|a s IH]; [done|]. cbn [rstrip].
  destruct (rstrip s) as [|b r] eqn:E.
  - destruct (is_space a) eqn:Ha; [done|]. cbn. by intros [= <-].
  - done.
Qed.

Lemma rstrip_first (s : string) (c : ascii) :
  first_char s = Some c → is_space c = false →
  first_char (rstrip s) = Some c.
Proof.
  destruct s as [|a s]; [done|]. cbn [first_char rstrip]. intros [= ->] Hc.
  destruct (rstrip s); [by rewrite Hc | done].
Qed.

Lemma strip_first (s : string) (c : ascii) :
  first_char (strip s) = Some c → is_space c = false.
Proof.
  unfold strip. destruct (first_char (lstrip s)) as [a|] eqn:E.
  - pose proof (lstrip_first s a E) as Ha.
    rewrite (rstrip_first _ a E Ha). by intros [= <-].
  - destruct (lstrip s); [done | discriminate E].
Qed.

Lemma strip_last (s : string) (c : ascii) :
  last_char (strip s) = Some c → is_space c = false.
Proof. apply rstrip_last. Qed.

Lemma lstrip_commas (s : string) : count_commas (lstrip s) = count_commas s.
Proof.
  induction s as [|a s IH]; [done|]. cbn [lstrip count_commas].
  destruct (is_space a) eqn:Ha; [|done].
  by rewrite (is_space_not_comma a Ha), IH.
Qed.

Lemma rstrip_commas (s : string) : count_commas (rstrip s) = count_commas s.
Proof.
  induction s as [|a s IH]; [done|]. cbn [rstrip count_commas].
  destruct (rstrip s) as [|b r] eqn:E.
  - rewrite <- IH. cbn [count_commas].
    destruct (is_space a) eqn:Ha; [|done].
    by rewrite (is_space_not_comma a Ha).
  - cbn [count_commas]. by rewrite <- IH.
Qed.

Lemma strip_commas (s : string) : count_commas (strip s) = count_commas s.
Proof. unfold strip. by rewrite rstrip_commas, lstrip_commas. Qed.

Lemma rstrip_idem (s : string) : rstrip (rstrip s) = rstrip s.
Proof.
  induction s as [|a s IH]; [done|]. cbn [rstrip].
  destruct (rstrip s) as [|b r] eqn:E.
  - destruct (is_space a) eqn:Ha; [done|]. cbn [rstrip]. by rewrite Ha.
  - cbn [rstrip] in *. rewrite IH. done.
Qed.

Lemma lstrip_fixed (s : string) :
  (∀ c, first_char s = Some c → is_space c = false) → lstrip s = s.
Proof.
  destruct s as [|a s]; [done|]. intros H. cbn [lstrip].
  by rewrite (H a eq_refl).
Qed.

Lemma strip_idem (s : string) : strip (strip s) = strip s.
Proof.
  unfold strip at 1. rewrite lstrip_fixed by apply strip_first.
  unfold strip. apply rstrip_idem.
Qed.

End TextFacts.

(** ** More facts about the search aggregator *)

Section DedupSortMore.

Implicit Types (results : list post_record) (seen : gset string).

(** Nothing is dropped from a sequence whose URLs are new and distinct. *)
Lemma dedup_loop_distinct results seen :
  NoDup (url <$> results) → (∀ r, r ∈ results → url r ∉ seen) →
  dedup_loop results seen [] = results.
Proof.
  revert seen; induction results as [|r results IH]; intros seen Hnd Hnew;
    [done|].
  rewrite dedup_loop_cons. rewrite fmap_cons in Hnd.
  apply NoDup_cons in Hnd as [Hr Hnd].
  rewrite decide_False by (apply Hnew; by left).
  f_equal. apply IH; [done|]. intros r' Hr'.
  rewrite elem_of_union, elem_of_singleton. intros [E|E].
  - apply Hr. rewrite <- E. apply list_elem_of_fmap. by exists r'.
  - apply (Hnew r'); [by right | done].
Qed.

Lemma dedup_distinct results :
  NoDup (url <$> results) → dedup results = results.
Proof.
  intros Hnd. apply dedup_loop_distinct; [done|].
  intros r _. apply not_elem_of_empty.
Qed.

Lemma dedup_idem results : dedup (dedup results) = dedup results.
Proof. apply dedup_distinct, dedup_NoDup. Qed.

(** The URLs that occur are the same before and after deduplication. *)
Lemma dedup_urls results u :
  u ∈ url <$> dedup results ↔ u ∈ url <$> results.
Proof.
  rewrite !list_elem_of_fmap. split.
  - intros (r & -> & Hr). exists r. split; [done|].
    eapply elem_of_sublist; [done | apply dedup_sublist].
  - intros (r & -> & Hr).
    destruct (dedup_keeps_urls _ _ Hr) as (r' & Hr' & Hu). by exists r'.
Qed.

Lemma sort_desc_sorted_id {A} (key : A → Z) (l : list A) :
  StronglySorted (key_ge key) l → sort_desc key l = l.
Proof.
  induction 1 as [|x l Hs IH Hx]; [done|].
  cbn [sort_desc]. rewrite IH.
  destruct l as [|y l]; [done|]. cbn [insert_desc].
  apply Forall_cons in Hx as [Hxy _]. unfold key_ge in Hxy.
  by rewrite (proj2 (Z.ltb_ge _ _) Hxy).
Qed.

Lemma sort_desc_idem {A} (key : A → Z) (l : list A) :
  sort_desc key (sort_desc key l) = sort_desc key l.
Proof. apply sort_desc_sorted_id, sort_desc_sorted. Qed.

End DedupSortMore.

Section SearchMore.

Context (fromtimestamp : Z → outcome PyFmt.datetime).
Context (search : string → string → string → string → Z → Praw.listing).
Context (subreddits time_filter : string) (limit : Z) (sort : string).

#[local] Abbreviation collect_ :=
  (collect fromtimestamp search subreddits time_filter limit sort).
#[local] Abbreviation client kw :=
  (search subreddits kw sort time_filter limit).
#[local] Abbreviation records_of kw :=
  (keyword_records fromtimestamp search subreddits time_filter limit sort kw).
#[local] Abbreviation error_of kw :=
  (keyword_error fromtimestamp search subreddits time_filter limit sort kw).

(** What the collection loop does to the world: one report per keyword that
    ended with an error, in keyword order, on the error stream. *)
Lemma collect_world keywords w :
  run (collect_ keywords []) w =
    World (stdout w)
      (stderr w
       +:+ foldr (λ kw acc, error_report kw (error_of kw) +:+ acc) "" keywords)
      (files w).
Proof.
  revert w; induction keywords as [|kw keywords IH]; intros w.
  - destruct w. unfold run. cbn. by rewrite PyStrFacts.app_nil_r.
  - unfold run at 1. rewrite collect_cons, collect_acc. cbn [snd].
    rewrite IH. cbn [foldr]. unfold error_report at 2.
    destruct (error_of kw) as [e|].
    + rewrite run_print_stderr. cbn [stdout stderr files].
      by rewrite !PyStrFacts.app_assoc.
    + done.
Qed.

(** The records of a keyword were built from submissions its search
    yielded. *)
Lemma keyword_records_provenance kw r :
  r ∈ records_of kw →
  ∃ post, post ∈ Praw.yielded (client kw)
          ∧ search_record fromtimestamp post = Returned r.
Proof.
  intros Hr.
  destruct (keyword_outcome fromtimestamp search subreddits time_filter limit
              sort kw)
    as [[_ Hall] | (before & p & after & e & Hy & _ & _ & Hall)].
  - apply list_elem_of_lookup in Hr as [i Hi].
    destruct (Forall2_lookup_r _ _ _ _ _ Hall Hi) as (post & Hpost & Hb).
    exists post. split; [|done]. by eapply list_elem_of_lookup_2.
  - apply list_elem_of_lookup in Hr as [i Hi].
    destruct (Forall2_lookup_r _ _ _ _ _ Hall Hi) as (post & Hpost & Hb).
    exists post. split; [|done]. rewrite Hy. apply elem_of_app. left.
    by eapply list_elem_of_lookup_2.
Qed.

Lemma keyword_records_length kw :
  length (records_of kw) ≤ length (Praw.yielded (client kw)).
Proof.
  destruct (keyword_outcome fromtimestamp search subreddits time_filter limit
              sort kw)
    as [[_ Hall] | (before & p & after & e & Hy & _ & _ & Hall)].
  - by rewrite (Forall2_length _ _ _ Hall).
  - rewrite Hy, <- (Forall2_length _ _ _ Hall), length_app. lia.
Qed.

(** Every collected record was built from a submission some keyword
    yielded. *)
Lemma collect_provenance keywords w r :
  r ∈ result (collect_ keywords []) w →
  ∃ kw post, kw ∈ keywords ∧ post ∈ Praw.yielded (client kw)
             ∧ search_record fromtimestamp post = Returned r.
Proof.
  rewrite collect_result. intros Hr.
  apply list_elem_of_In, in_concat in Hr as (l & Hl & Hr).
  apply in_map_iff in Hl as (kw & <- & Hkw).
  apply list_elem_of_In, keyword_records_provenance in Hr as (post & Hp & Hb).
  exists kw, post. by rewrite list_elem_of_In.
Qed.

Lemma search_reddit_frame keywords w :
  stdout (run (search_reddit fromtimestamp search subreddits keywords
                 time_filter limit sort) w) = stdout w ∧
  files (run (search_reddit fromtimestamp search subreddits keywords
                time_filter limit sort) w) = files w.
Proof.
  unfold run. rewrite search_reddit_eq. cbn [snd]. apply collect_frame.
Qed.

End SearchMore.

(** ** Facts about the stream monitor *)

Section MonitorFacts.

Import Json PyText.

Lemma monitor_event_world keywords event w :
  run (monitor_event keywords event) w =
    World (stdout w +:+ monitor_lines keywords [event]) (stderr w) (files w).
Proof.
  unfold monitor_event. cbn [monitor_lines].
  destruct (monitor_match keywords event.1 event.2) as [r|].
  - rewrite run_print. unfold monitor_line.
    by rewrite !PyStrFacts.app_nil_r.
  - destruct w. unfold run. cbn. by rewrite PyStrFacts.app_nil_r.
Qed.

Lemma monitor_lines_app keywords events1 events2 :
  monitor_lines keywords (events1 ++ events2) =
    monitor_lines keywords events1 +:+ monitor_lines keywords events2.
Proof.
  induction events1 as [|event events1 IH]; [done|].
  cbn [app monitor_lines]. rewrite IH.
  destruct (monitor_match _ _ _); [|done]. by rewrite PyStrFacts.app_assoc.
Qed.

(** The loop prints one line per relevant event and nothing else. *)
Lemma monitor_loop_world keywords events w :
  run (monitor_loop keywords events) w =
    World (stdout w +:+ monitor_lines keywords events) (stderr w) (files w).
Proof.
  revert w; induction events as [|event events IH]; intros w.
  - destruct w. unfold run. cbn. by rewrite PyStrFacts.app_nil_r.
  - cbn [monitor_loop]. rewrite run_bind, IH, monitor_event_world.
    cbn [stdout stderr files].
    change (event :: events) with ([event] ++ events).
    by rewrite monitor_lines_app, PyStrFacts.app_assoc.
Qed.

Lemma monitor_reddit_output_eq subreddits keywords events w :
  run (monitor_reddit subreddits keywords events) w =
    World
      (stdout w +:+ monitor_header subreddits keywords
       +:+ monitor_lines keywords events)
      (stderr w) (files w).
Proof.
  unfold monitor_reddit. rewrite !run_bind, monitor_loop_world, !run_print.
  cbn [stdout stderr files]. unfold monitor_header.
  by rewrite !PyStrFacts.app_assoc.
Qed.

(** *** The printed line is printable ASCII *)

Lemma all_chars_app (p : ascii → bool) (a b : string) :
  all_chars p (a +:+ b) = all_chars p a && all_chars p b.
Proof.
  induction a as [|c a IH]; [done|].
  cbn [String.append all_chars]. by rewrite IH, andb_assoc.
Qed.

Lemma escape_char_printable (c : ascii) :
  all_chars is_printable (escape_char c) = true.
Proof. destruct c as [[|] [|] [|] [|] [|] [|] [|] [|]]; reflexivity. Qed.

Lemma encode_string_printable (s : string) :
  all_chars is_printable (encode_string s) = true.
Proof.
  unfold encode_string. cbn [all_chars]. rewrite all_chars_app.
  assert (all_chars is_printable (escape s) = true) as ->; [|done].
  induction s as [|c s IH]; [done|].
  cbn [escape]. by rewrite all_chars_app, escape_char_printable, IH.
Qed.

Lemma string_of_uint_printable (d : Decimal.uint) :
  all_chars is_printable (NilEmpty.string_of_uint d) = true.
Proof. induction d; cbn [NilEmpty.string_of_uint all_chars]; by rewrite ?IHd. Qed.

Lemma str_of_Z_printable (z : Z) :
  all_chars is_printable (PyFmt.str_of_Z z) = true.
Proof.
  unfold PyFmt.str_of_Z.
  destruct z as [|p|p]; cbn [Z.to_int NilZero.string_of_int]; [done|..];
    rewrite string_of_uint_pos; cbn [all_chars];
    by rewrite string_of_uint_printable.
Qed.

Lemma record_line_printable (r : post_record) :
  all_chars is_printable (dumps None (json_of_record r)) = true.
Proof.
  unfold dumps, json_of_record.
  cbn [encode newline_indent item_separator key_separator].
  rewrite !all_chars_app, !encode_string_printable, !str_of_Z_printable.
  reflexivity.
Qed.

(** *** Reading the printed line back *)

(** A member followed by a comma, a space and another member. *)
Lemma parse_members_more_compact (n : nat) (k X : string) (v : value)
    (k' Y : string) :
  skip_ws X = X →
  parse_value n X
    = Some (v, String "," (String " " (encode_string k' +:+ Y))) →
  parse_members (S n) (encode_string k +:+ key_separator +:+ X) =
    '(ms, rest) ← parse_members n (encode_string k' +:+ Y);
    Some ((k, v) :: ms, rest).
Proof.
  intros HX Hv. rewrite encode_string_app. cbn [parse_members].
  change (N_of_ascii dquote =? 34)%N with true. cbn iota.
  rewrite scan_string_escape. cbn [mbind option_bind].
  change (skip_ws (key_separator +:+ X)) with (String ":" (String " " X)).
  cbn iota. change (N_of_ascii ":" =? 58)%N with true. cbn iota.
  change (skip_ws (String " " X)) with (skip_ws X). rewrite HX, Hv.
  cbn [mbind option_bind].
  change (skip_ws (String "," ?t)) with (String "," t). cbn iota.
  change (N_of_ascii "," =? 125)%N with false.
  change (N_of_ascii "," =? 44)%N with true. cbn iota.
  change (skip_ws (String " " (encode_string k' +:+ Y)))
    with (skip_ws (encode_string k' +:+ Y)).
  by rewrite skip_ws_encode_string.
Qed.

(** The last member, followed by the closing brace. *)
Lemma parse_members_last_compact (n : nat) (k X : string) (v : value)
    (rest : string) :
  skip_ws X = X → parse_value n X = Some (v, String "}" rest) →
  parse_members (S n) (encode_string k +:+ key_separator +:+ X) =
    Some ([(k, v)], rest).
Proof.
  intros HX Hv. rewrite encode_string_app. cbn [parse_members].
  change (N_of_ascii dquote =? 34)%N with true. cbn iota.
  rewrite scan_string_escape. cbn [mbind option_bind].
  change (skip_ws (key_separator +:+ X)) with (String ":" (String " " X)).
  cbn iota. change (N_of_ascii ":" =? 58)%N with true. cbn iota.
  change (skip_ws (String " " X)) with (skip_ws X). rewrite HX, Hv.
  reflexivity.
Qed.

Lemma parse_value_object_open_compact (n : nat) (k Y : string) :
  parse_value (S n) (String "{" (encode_string k +:+ Y)) =
    '(ms, rest) ← parse_members n (encode_string k +:+ Y);
    Some (JObj (dict_of_pairs ms), rest).
Proof. rewrite encode_string_app. reflexivity. Qed.

#[local] Ltac text_member_compact :=
  erewrite parse_members_more_compact;
  [| apply skip_ws_encode_string | apply parse_value_string].
#[local] Ltac int_member_compact :=
  erewrite parse_members_more_compact;
  [| by apply skip_ws_int | by apply parse_value_int].

Lemma parse_record_line (n : nat) (r : post_record) (rest : string) :
  parse_value (9 + n) (dumps None (json_of_record r) +:+ rest)
    = Some (json_of_record r, rest).
Proof.
  unfold dumps, json_of_record.
  cbn [encode newline_indent item_separator].
  rewrite !PyStrFacts.app_assoc. cbn [String.append Nat.add].
  rewrite parse_value_object_open_compact.
  do 2 text_member_compact. do 2 int_member_compact.
  do 2 text_member_compact.
  erewrite parse_members_last_compact;
    [| apply skip_ws_encode_string | apply parse_value_string].
  reflexivity.
Qed.

Lemma loads_record_line (r : post_record) (trailing : string) :
  skip_ws trailing = "" →
  loads (dumps None (json_of_record r) +:+ trailing)
    = Some (json_of_record r).
Proof.
  intros Htrail. unfold loads.
  assert (skip_ws (dumps None (json_of_record r) +:+ trailing)
          = dumps None (json_of_record r) +:+ trailing) as ->.
  { reflexivity. }
  assert (∃ n, (2 * String.length
                      (dumps None (json_of_record r) +:+ trailing) + 2
                = 9 + n)%nat) as [n ->].
  { exists (2 * String.length
                  (dumps None (json_of_record r) +:+ trailing) + 2 - 9)%nat.
    assert (4 ≤ String.length (dumps None (json_of_record r) +:+ trailing));
      [|lia].
    unfold dumps, json_of_record.
    cbn [encode newline_indent item_separator].
    rewrite !PyStrFacts.app_assoc, encode_string_app.
    cbn [String.append String.length escape].
    rewrite PyStrFacts.length_app. unfold key_separator.
    cbn [String.append String.length]. lia. }
  rewrite parse_record_line. cbn [mbind option_bind]. by rewrite Htrail.
Qed.

End MonitorFacts.

(** ** More facts about the result formatter *)

Section OutputMore.

Import PyStr PyText.

Implicit Types (results : list post_record) (w : world).

Lemma print_text_record_world (r : post_record) w :
  run (print_text_record r) w =
    World (stdout w +:+ text_block r) (stderr w) (files w).
Proof.
  unfold print_text_record. rewrite !run_bind, !run_print.
  cbn [stdout stderr files]. f_equal. unfold text_block.
  by rewrite !PyStrFacts.app_assoc.
Qed.

Lemma print_text_records_world results w :
  run (print_text_records results) w =
    World (stdout w +:+ foldr (λ r acc, text_block r +:+ acc) "" results)
      (stderr w) (files w).
Proof.
  revert w; induction results as [|r results IH]; intros w.
  - destruct w. unfold run. cbn. by rewrite PyStrFacts.app_nil_r.
  - cbn [print_text_records foldr].
    rewrite run_bind, IH, print_text_record_world.
    cbn [stdout stderr files]. by rewrite PyStrFacts.app_assoc.
Qed.

Lemma substring_of_refl (s : string) : substring_of s s.
Proof. exists "", "". cbn. by rewrite PyStrFacts.app_nil_r. Qed.

Lemma substring_of_app_l (needle a b : string) :
  substring_of needle a → substring_of needle (a +:+ b).
Proof.
  intros (pre & post & ->). exists pre, (post +:+ b).
  by rewrite !PyStrFacts.app_assoc.
Qed.

Lemma substring_of_app_r (needle a b : string) :
  substring_of needle b → substring_of needle (a +:+ b).
Proof.
  intros (pre & post & ->). exists (a +:+ pre), post.
  by rewrite !PyStrFacts.app_assoc.
Qed.

Lemma text_blocks_contain results (r : post_record) :
  r ∈ results →
  substring_of (text_block r)
    (foldr (λ r acc, text_block r +:+ acc) "" results).
Proof.
  induction results as [|r0 results IH]; [by intros ?%elem_of_nil|].
  cbn [foldr]. intros [->|Hr]%elem_of_cons.
  - apply substring_of_app_l, substring_of_refl.
  - by apply substring_of_app_r, IH.
Qed.

(** *** CSV fields *)

Lemma field_plain (s : string) : Csv.has_special s = false → Csv.field s = s.
Proof. unfold Csv.field. by intros ->. Qed.

Lemma string_of_uint_plain (d : Decimal.uint) :
  Csv.has_special (NilEmpty.string_of_uint d) = false.
Proof.
  induction d; cbn [NilEmpty.string_of_uint Csv.has_special];
    by rewrite ?IHd.
Qed.

Lemma str_of_Z_plain (z : Z) : Csv.has_special (PyFmt.str_of_Z z) = false.
Proof.
  unfold PyFmt.str_of_Z.
  destruct z as [|p|p]; cbn [Z.to_int NilZero.string_of_int]; [done|..];
    rewrite string_of_uint_pos; cbn [Csv.has_special];
    by rewrite string_of_uint_plain.
Qed.

(** *** File names *)

Lemma last_char_app (a b : string) :
  b ≠ "" → last_char (a +:+ b) = last_char b.
Proof.
  intros Hb. induction a as [|c a IH]; [done|].
  cbn [String.append last_char]. rewrite IH.
  destruct (a +:+ b) eqn:E; [|done].
  destruct a; [cbn in E; by subst b | discriminate E].
Qed.

Lemma endswith_csv_not_json (f : string) :
  endswith f ".csv" = true → endswith f ".json" = false.
Proof.
  intros [pre ->]%PyStrFacts.endswith_spec.
  destruct (endswith (pre +:+ ".csv") ".json") eqn:E; [|done].
  apply PyStrFacts.endswith_spec in E as [pre' E].
  apply (f_equal last_char) in E.
  rewrite !last_char_app in E by done. discriminate E.
Qed.

End OutputMore.

(** ** Facts about the command line *)

Section MainFacts.

Context (fromtimestamp : Z → outcome PyFmt.datetime).
Context (search : string → string → string → string → Z → Praw.listing).
Context (open_error : string → option string).
Context (help_text : string).

(** The [search] command: the search with a limit of 50 per keyword, then
    the formatter on what it returned; status 0 if the formatter returns,
    its exception otherwise. *)
Lemma main_search (o : search_options) events w :
  let searching :=
    search_reddit fromtimestamp search (search_subreddits o)
      (parse_keywords (search_keywords o)) (search_time o) 50
      (search_sort o) in
  let formatting :=
    output_results open_error (result searching w)
      (main_output_format (search_json o) (search_output o))
      (search_output o) (Some (search_limit o)) in
  main fromtimestamp search open_error help_text (Search o) events w =
    (match result formatting (run searching w) with
     | Returned _ => Returned (Some 0%Z)
     | Raised e => Raised e
     end,
     run formatting (run searching w)).
Proof.
  cbn zeta. unfold main, and_then, mbind, IO_bind, run, result, mret, IO_ret.
  destruct (search_reddit _ _ _ _ _ _ _ w) as [returned w1]. cbn [fst snd].
  by destruct (output_results _ _ _ _ _ w1) as [[[]|e] w2].
Qed.

Lemma main_output_format_json (json : bool) (f : string) :
  f ≠ "" → json = true ∨ PyStr.endswith f ".json" = true →
  main_output_format json (Some f) = "json".
Proof.
  intros Hf H. unfold main_output_format. rewrite path_given_nonempty by done.
  destruct (PyStr.endswith f ".json"); [done|]. by destruct H as [-> | ?].
Qed.

Lemma main_output_format_csv (f : string) :
  PyStr.endswith f ".csv" = true → main_output_format false (Some f) = "text".
Proof.
  intros H. unfold main_output_format.
  rewrite path_given_nonempty by (by eapply endswith_nonempty).
  by rewrite endswith_csv_not_json.
Qed.

End MainFacts.

(** * The claims *)

(** ** Relevance filter *)

(** C3.  [check_relevance T K] is true exactly when some keyword of [K],
    lower-cased, is a substring of [T] lower-cased. *)
Theorem check_relevance_iff_substring (T : string) (K : list string) :
  check_relevance T K = true ↔
  ∃ k, In k K ∧ PyStr.substring_of (PyStr.lower k) (PyStr.lower T).
Proof.
  unfold check_relevance. rewrite existsb_exists.
  split; intros (k & Hin & Hk); exists k; (split; [exact Hin|]).
  - by apply PyStrFacts.contains_spec.
  - by apply PyStrFacts.contains_spec.
Qed.

(** C2, as stated, fails: the empty keyword is a substring of the empty
    text. *)
Lemma check_relevance_empty_text_empty_keyword :
  check_relevance "" [""] = true ∧ ¬ (∀ K, check_relevance "" K = false).
Proof.
  split; [reflexivity|]. intros H. specialize (H [""]). discriminate H.
Qed.

(** C2, amended.  [check_relevance T []] is false for every text [T], and
    [check_relevance "" K] is false for every keyword list [K] that does not
    contain the empty string. *)
Theorem check_relevance_empty (T : string) (K : list string) :
  check_relevance T [] = false ∧
  (¬ In "" K → check_relevance "" K = false).
Proof.
  split; [reflexivity|]. intros Hnot.
  destruct (check_relevance "" K) eqn:E; [|reflexivity].
  apply check_relevance_empty_text_iff in E. by destruct Hnot.
Qed.

Lemma check_relevance_empty_witness :
  check_relevance "seating chart help" [] = false ∧
  check_relevance "" ["seating chart"; "table layout"] = false.
Proof.
  destruct (check_relevance_empty "seating chart help"
              ["seating chart"; "table layout"]) as [H1 H2].
  split; [exact H1|]. apply H2. cbn. intros [H|[H|[]]]; discriminate H.
Defined.

(** ** Search aggregator *)

(** C4.  Deduplication keeps a subsequence of the collected records in which
    every collected URL occurs, no URL occurs twice, and the record carrying
    a URL is the first collected record with that URL; ranking reorders the
    kept records, so the URLs of the returned sequence are pairwise
    distinct. *)
Theorem dedup_first_occurrence_wins
    (fromtimestamp : Z → outcome PyFmt.datetime)
    (search : string → string → string → string → Z → Praw.listing)
    (subreddits : string) (keywords : list string) (time_filter : string)
    (limit : Z) (sort : string) (w : world) (results : list post_record) :
  (dedup results `sublist_of` results ∧
   (∀ r, r ∈ results → ∃ r', r' ∈ dedup results ∧ url r' = url r) ∧
   NoDup (url <$> dedup results) ∧
   ∀ u, first_with_url u (dedup results) = first_with_url u results) ∧
  let collected :=
    result (collect fromtimestamp search subreddits time_filter limit sort
              keywords []) w in
  let returned :=
    result (search_reddit fromtimestamp search subreddits keywords
              time_filter limit sort) w in
  returned ≡ₚ dedup collected ∧ NoDup (url <$> returned).
Proof.
  split.
  - split; [apply dedup_sublist|]. split; [apply dedup_keeps_urls|].
    split; [apply dedup_NoDup|]. intros u. apply dedup_first.
  - cbn zeta. unfold result at 1 3. rewrite search_reddit_eq. cbn [fst].
    split; [apply sort_desc_perm|].
    rewrite sort_desc_perm. apply dedup_NoDup.
Qed.


(** C6, as stated, fails: a search that yields a submission and then raises
    contributes the record built from that submission. *)
Lemma search_failure_keeps_partial_results :
  Praw.raised (flaky_search "weddingplanning" "seating chart" "new" "month" 250)
    = Some "received 503 HTTP response" ∧
  map Returned
    (result (search_reddit utc_fromtimestamp flaky_search "weddingplanning"
               ["seating chart"] "month" 250 "new") empty_world)
    = [search_record utc_fromtimestamp sample_submission] ∧
  result (search_reddit utc_fromtimestamp flaky_search "weddingplanning"
            ["seating chart"] "month" 250 "new") empty_world ≠ [].
Proof. split; [reflexivity|]. split; [reflexivity | discriminate]. Qed.

(** C6, amended.  When the work on one keyword ends with an error, because
    the search raised while its results were read or because the record of
    one of its posts could not be built, the loop reports the keyword and
    the message of that error on the error stream, keeps the records it
    built for the keyword before the error, and goes on with the remaining
    keywords: the records of the earlier keywords stay, those of the later
    keywords follow, and every collected record has its URL in the sequence
    [search_reddit] returns.  The error is the one the search raised, with
    the records of all the posts it yielded, unless a record could not be
    built: then it is the error of that record, with the records of the
    posts before it. *)
Theorem search_failure_is_isolated
    (fromtimestamp : Z → outcome PyFmt.datetime)
    (search : string → string → string → string → Z → Praw.listing)
    (subreddits time_filter : string) (limit : Z) (sort : string)
    (earlier later : list string) (keyword e : string) (w : world) :
  keyword_error fromtimestamp search subreddits time_filter limit sort
    keyword = Some e →
  let collect_ :=
    collect fromtimestamp search subreddits time_filter limit sort in
  let kept :=
    keyword_records fromtimestamp search subreddits time_filter limit sort
      keyword in
  let listing := search subreddits keyword sort time_filter limit in
  let w1 := run (collect_ earlier []) w in
  let w2 :=
    run (print_stderr ("Error searching for '" +:+ keyword +:+ "': " +:+ e))
      w1 in
  let all := earlier ++ keyword :: later in
  result (collect_ all []) w =
    result (collect_ earlier []) w ++ kept ++ result (collect_ later []) w2
  ∧ run (collect_ all []) w = run (collect_ later []) w2
  ∧ stderr w2
    = stderr w1 +:+ "Error searching for '" +:+ keyword +:+ "': " +:+ e
      +:+ String Json.newline ""
  ∧ (∀ r, r ∈ result (collect_ all []) w →
       ∃ r', r' ∈ result (search_reddit fromtimestamp search subreddits all
                            time_filter limit sort) w
             ∧ url r' = url r)
  ∧ ((Praw.raised listing = Some e ∧
      Forall2 (λ post r, search_record fromtimestamp post = Returned r)
        (Praw.yielded listing) kept) ∨
     (∃ before post after,
        Praw.yielded listing = before ++ post :: after ∧
        search_record fromtimestamp post = Raised e ∧
        Forall2 (λ post r, search_record fromtimestamp post = Returned r)
          before kept)).
Proof.
  intros Hfailed. cbn zeta.
  set (c := collect fromtimestamp search subreddits time_filter limit sort).
  set (w1 := run (c earlier []) w).
  set (w2 := run (print_stderr _) w1).
  pose proof (collect_app fromtimestamp search subreddits time_filter limit
                sort earlier (keyword :: later) w) as Happ.
  pose proof (collect_cons fromtimestamp search subreddits time_filter limit
                sort keyword later [] w1) as Hcons.
  rewrite Hfailed in Hcons.
  rewrite (collect_acc _ _ _ _ _ _ later) in Hcons.
  fold c w1 in Happ. fold c w2 in Hcons.
  assert (Hres : result (c (earlier ++ keyword :: later) []) w =
                 result (c earlier []) w
                 ++ keyword_records fromtimestamp search subreddits
                      time_filter limit sort keyword
                 ++ result (c later []) w2).
  { unfold result at 1. rewrite Happ. cbn [fst]. f_equal.
    unfold result at 1. by rewrite Hcons. }
  assert (Hrun : run (c (earlier ++ keyword :: later) []) w
                 = run (c later []) w2).
  { unfold run at 1. rewrite Happ. cbn [snd].
    unfold run at 1. by rewrite Hcons. }
  split; [exact Hres|]. split; [exact Hrun|]. split.
  { subst w2. unfold run, print_stderr. cbn [snd stderr].
    by rewrite !PyStrFacts.app_assoc. }
  split.
  { intros r Hr.
    unfold result at 1. rewrite search_reddit_eq. cbn [fst]. fold c.
    destruct (dedup_keeps_urls _ _ Hr) as (r' & Hr' & Hu).
    exists r'. split; [|done]. by rewrite sort_desc_perm. }
  destruct (keyword_outcome fromtimestamp search subreddits time_filter limit
              sort keyword)
    as [[Herr Hall] | (before & p & after & e' & Hy & Hp & Herr & Hall)].
  - left. split; [congruence | done].
  - right. exists before, p, after.
    assert (e' = e) as -> by congruence. done.
Qed.

Lemma search_failure_is_isolated_witness :
  map Returned
    (result (collect utc_fromtimestamp flaky_search "weddingplanning" "month"
               250 "new" ["table layout"; "seating chart"; "guest seating"]
               []) empty_world)
  = [search_record utc_fromtimestamp sample_submission] ∧
  map Returned
    (result (collect utc_fromtimestamp late_search "wedding" "month" 250
               "new" ["table layout"; "seating plan"; "guest seating"] [])
       empty_world)
  = [search_record utc_fromtimestamp sample_submission] ∧
  stderr (run (collect utc_fromtimestamp late_search "wedding" "month" 250
                 "new" ["table layout"; "seating plan"; "guest seating"] [])
            empty_world)
  = "Error searching for 'seating plan': year 10000 is out of range"
    +:+ String Json.newline "".
Proof.
  pose proof (search_failure_is_isolated utc_fromtimestamp flaky_search
                "weddingplanning" "month" 250 "new" ["table layout"]
                ["guest seating"] "seating chart"
                "received 503 HTTP response" empty_world eq_refl) as H.
  pose proof (search_failure_is_isolated utc_fromtimestamp late_search
                "wedding" "month" 250 "new" ["table layout"]
                ["guest seating"] "seating plan"
                "year 10000 is out of range" empty_world eq_refl) as H'.
  cbn zeta in H, H'. destruct H as [H _]. destruct H' as (H1 & H2 & H3 & _).
  split; [exact (eq_trans (f_equal (map Returned) H) eq_refl)|].
  split; [exact (eq_trans (f_equal (map Returned) H1) eq_refl)|].
  exact (eq_trans (f_equal stderr H2) eq_refl).
Defined.

(** ** Result formatter *)

(** C7, as stated, fails: a cap of 0 is given, and both records of a
    two-record sequence are rendered. *)
Lemma display_cap_zero_shows_all :
  displayed [sample_post_1; sample_post_2] (Some 0%Z)
    = [sample_post_1; sample_post_2] ∧
  length (displayed [sample_post_1; sample_post_2] (Some 0%Z))
    ≠ Z.to_nat (Z.min 0 2) ∧
  ∀ open_error,
    run (output_results open_error [sample_post_1; sample_post_2] "json" None
           (Some 0%Z)) empty_world
    = run (output_results open_error [sample_post_1; sample_post_2] "json"
             None None) empty_world.
Proof. split; [reflexivity|]. split; [discriminate | reflexivity]. Qed.

(** C7, amended.  For every record sequence and every positive display cap,
    what [output_results] renders is the rendering of the leading
    [min(cap, length)] records in sequence order, and in JSON mode the text
    printed reads back as exactly those records; a cap of 1 on a two-record
    sequence leaves exactly the first record. *)
Theorem display_cap_truncates (open_error : string → option string)
    (results : list post_record) (cap : Z)
    (output_format : string) (output_file : option string) (w : world) :
  (0 < cap)%Z →
  displayed results (Some cap) = take (Z.to_nat cap) results ∧
  Z.of_nat (length (displayed results (Some cap)))
    = Z.min cap (Z.of_nat (length results)) ∧
  output_results open_error results output_format output_file (Some cap)
    = output_results open_error (take (Z.to_nat cap) results) output_format
        output_file None ∧
  (∃ out,
     stdout (run (output_results open_error results "json" None (Some cap))
               w)
       = stdout w +:+ out ∧
     Json.loads out
       = Some (json_of_results (take (Z.to_nat cap) results))) ∧
  ∀ a b : post_record, displayed [a; b] (Some 1%Z) = [a].
Proof.
  intros Hcap. pose proof (displayed_positive results cap Hcap) as Hd.
  split; [exact Hd|]. split; [rewrite Hd, length_take; lia|].
  split; [unfold output_results; by rewrite Hd, displayed_none|].
  split; [|done].
  unfold output_results. rewrite Hd. eexists. split; [reflexivity|].
  by apply loads_dumps_results.
Qed.

Lemma display_cap_truncates_witness :
  displayed [sample_post_1; sample_post_2] (Some 1%Z) = [sample_post_1].
Proof.
  destruct (display_cap_truncates sample_open_error
              [sample_post_1; sample_post_2] 1 "json" None empty_world
              ltac:(lia)) as [H _].
  exact H.
Defined.

(** C10, as stated, fails: with the selector ["json"] a path that ends in
    [.csv] receives JSON, not CSV; and a path that ends in [.csv] but cannot
    be opened receives nothing. *)
Lemma csv_extension_does_not_override_json :
  PyStr.endswith "results.csv" ".csv" = true ∧
  files (run (output_results sample_open_error [sample_post_1] "json"
                (Some "results.csv") None) empty_world) !! "results.csv"
    = Some (Json.dumps (Some 2) (json_of_results [sample_post_1])) ∧
  Json.dumps (Some 2) (json_of_results [sample_post_1])
    ≠ csv_render [sample_post_1] ∧
  PyStr.endswith "no_such_dir/results.csv" ".csv" = true ∧
  files (run (output_results sample_open_error [sample_post_1] "text"
                (Some "no_such_dir/results.csv") None) empty_world) = ∅.
Proof.
  split; [reflexivity|]. split; [reflexivity|]. split; [discriminate|].
  split; reflexivity.
Qed.

(** C10, amended.  When the output path ends in [.csv] and can be opened for
    writing, and the format selector is not ["json"] (it may be ["text"],
    ["csv"] or anything else), [output_results] writes the CSV rendering of
    the displayed records to that file: the fixed header row, then one row
    per record; it confirms on the error stream, prints nothing and
    returns. *)
Theorem csv_extension_selects_csv (open_error : string → option string)
    (results : list post_record)
    (output_format f : string) (limit : option Z) (w : world) :
  PyStr.endswith f ".csv" = true →
  open_error f = None →
  output_format ≠ "json" →
  let shown := displayed results limit in
  output_results open_error results output_format (Some f) limit w =
    (Returned tt,
     World (stdout w)
       (stderr w +:+ "Saved " +:+ PyFmt.str_of_len shown +:+ " results to "
        +:+ f +:+ String Json.newline "")
       (<[f := "title,subreddit,score,comments,url,created,author"
               +:+ Csv.crlf
               +:+ foldr (λ r rows, csv_row r +:+ rows) "" shown]>
          (files w))).
Proof.
  intros Hext Hopen Hfmt shown.
  rewrite output_results_csv_file.
  - unfold saved_message. fold shown. by rewrite !PyStrFacts.app_assoc.
  - by eapply endswith_nonempty.
  - done.
  - done.
  - by right.
Qed.

Lemma csv_extension_selects_csv_witness :
  files (run (output_results sample_open_error [sample_post_1] "text"
                (Some "results.csv") None) empty_world) !! "results.csv"
  = Some ("title,subreddit,score,comments,url,created,author" +:+ Csv.crlf
          +:+ csv_row sample_post_1).
Proof.
  unfold run.
  rewrite (csv_extension_selects_csv sample_open_error [sample_post_1] "text"
             "results.csv" None empty_world eq_refl eq_refl
             ltac:(discriminate)).
  cbn [snd files]. rewrite lookup_insert_eq. reflexivity.
Defined.

(** C1 at the input where the code departs from it: text format with an
    output path that does not end in [.csv].  The text goes to standard
    output, no file is written and nothing is confirmed. *)
Theorem text_format_ignores_output_file
    (open_error : string → option string) :
  let w := run (output_results open_error [sample_post_1] "text"
                  (Some "results.txt") None) empty_world in
  files w = ∅ ∧ stderr w = "" ∧ stdout w ≠ "" ∧
  w = run (output_results open_error [sample_post_1] "text" None None)
        empty_world.
Proof.
  cbn zeta. split; [reflexivity|]. split; [reflexivity|].
  split; [discriminate | reflexivity].
Qed.

(** ** Stream monitor *)

(** C9.  The record [monitor_reddit] builds for a matching event has as
    [created] the ISO text of the clock reading taken while the event is
    handled, whatever the creation time of the submission; the same
    submission handled at two different clock readings gives two different
    [created] values.  [search_reddit] instead formats the creation epoch
    seconds of the post. *)
Theorem monitor_created_is_wall_clock
    (fromtimestamp : Z → outcome PyFmt.datetime) (keywords : list string)
    (submission : Praw.submission) (now now' : PyFmt.datetime)
    (r r' : post_record) :
  monitor_match keywords submission now = Some r →
  monitor_match keywords submission now' = Some r' →
  PyFmt.valid_datetime now → PyFmt.valid_datetime now' → now ≠ now' →
  created r = PyFmt.isoformat now ∧
  created r' = PyFmt.isoformat now' ∧
  created r ≠ created r' ∧
  (∀ t, monitor_match keywords (Praw.with_created_utc t submission) now
        = Some r) ∧
  outcome_map created (search_record fromtimestamp submission)
    = outcome_map PyFmt.isoformat
        (fromtimestamp (Praw.created_utc submission)).
Proof.
  unfold monitor_match. intros Hr Hr' Hv Hv' Hne.
  destruct (check_relevance (Praw.title submission) keywords
            || check_relevance (or_empty (Praw.selftext submission)) keywords)
    eqn:Hrel; [|discriminate].
  injection Hr as <-. injection Hr' as <-. cbn [created monitor_record].
  split; [done|]. split; [done|]. split.
  - intros Heq. apply Hne. by apply isoformat_inj.
  - split.
    + intros t. destruct submission; cbn in *. by rewrite Hrel.
    + unfold search_record.
      by destruct (fromtimestamp (Praw.created_utc submission)).
Qed.

Lemma monitor_created_is_wall_clock_witness :
  created (monitor_record sample_submission
             (PyFmt.Datetime 2025 3 9 8 30 0 125000))
  ≠ created (monitor_record sample_submission
               (PyFmt.Datetime 2025 3 9 8 30 1 0)).
Proof.
  refine (proj1 (proj2 (proj2
    (monitor_created_is_wall_clock utc_fromtimestamp ["seating chart"]
       sample_submission
       (PyFmt.Datetime 2025 3 9 8 30 0 125000)
       (PyFmt.Datetime 2025 3 9 8 30 1 0)
       _ _ eq_refl eq_refl _ _ _)))).
  - unfold PyFmt.valid_datetime; cbn; lia.
  - unfold PyFmt.valid_datetime; cbn; lia.
  - discriminate.
Defined.

(** ** JSON output *)

(** C8.  In JSON mode the text [output_results] produces for a sequence of
    records reads back as an array with one object per record, in order,
    whose seven fields have the values of that record: the text printed on
    standard output when no path is given, and the text in the output file
    when a path is given that can be opened for writing. *)
Theorem json_output_round_trip (open_error : string → option string)
    (results : list post_record) (f : string) (w : world) :
  (∃ out,
     stdout (run (output_results open_error results "json" None None) w)
       = stdout w +:+ out ∧
     Json.loads out = Some (Json.JArr (map json_of_record results))) ∧
  (f ≠ "" → open_error f = None →
   ∃ text,
     files (run (output_results open_error results "json" (Some f) None) w)
       !! f = Some text ∧
     Json.loads text = Some (Json.JArr (map json_of_record results))) ∧
  length (map json_of_record results) = length results.
Proof.
  split; [|split].
  - eexists. split; [reflexivity|].
    by apply loads_dumps_results.
  - intros Hf Hopen. unfold run.
    rewrite output_results_json_file by done. cbn [snd files].
    rewrite lookup_insert_eq. eexists. split; [reflexivity|].
    rewrite <- (PyStrFacts.app_nil_r (Json.dumps _ _)).
    by apply loads_dumps_results.
  - apply length_map.
Qed.

Lemma json_output_round_trip_witness :
  (∃ out,
     stdout (run (output_results sample_open_error
                    [sample_post_1; sample_post_2] "json" None None)
               empty_world) = "" +:+ out ∧
     Json.loads out
       = Some (Json.JArr [json_of_record sample_post_1;
                          json_of_record sample_post_2])) ∧
  (∃ text,
     files (run (output_results sample_open_error
                   [sample_post_1; sample_post_2] "json"
                   (Some "results.json") None) empty_world)
       !! "results.json" = Some text ∧
     Json.loads text
       = Some (Json.JArr [json_of_record sample_post_1;
                          json_of_record sample_post_2])).
Proof.
  destruct (json_output_round_trip sample_open_error
              [sample_post_1; sample_post_2] "results.json" empty_world)
    as (H1 & H2 & _).
  split; [exact H1|]. apply H2; [discriminate | reflexivity].
Defined.

(** * Further properties of the code *)

(** ** Relevance filter *)

(** X1.  The relevance test does not depend on the case of the text or of
    the keywords: two texts with the same lower case, tested against two
    keyword lists with the same lower case, get the same answer. *)
Theorem check_relevance_case_insensitive (T T' : string)
    (K K' : list string) :
  PyStr.lower T = PyStr.lower T' →
  map PyStr.lower K = map PyStr.lower K' →
  check_relevance T K = check_relevance T' K'.
Proof. intros HT HK. by rewrite !check_relevance_lower, HT, HK. Qed.

Lemma check_relevance_case_insensitive_witness :
  check_relevance "SEATING Chart help" ["Seating Chart"; "TABLE"]
  = check_relevance "seating chart HELP" ["SEATING CHART"; "table"].
Proof.
  apply (check_relevance_case_insensitive "SEATING Chart help"
           "seating chart HELP" ["Seating Chart"; "TABLE"]
           ["SEATING CHART"; "table"]); reflexivity.
Defined.

(** X2.  For text and keywords made of characters below code point 256 (the
    alphabet of [string], on which [str.lower] works character by
    character), a match is never lost by putting more such text around the
    text or by testing against more keywords.  Beyond that alphabet
    [str.lower] looks at the context of a letter, and the property is not
    claimed. *)
Theorem check_relevance_monotone (T pre post : string) (K K' : list string) :
  check_relevance T K = true → (∀ k, In k K → In k K') →
  check_relevance (pre +:+ T +:+ post) K' = true.
Proof.
  intros Hrel Hsub. apply check_relevance_spec in Hrel as (k & Hin & Hk).
  apply check_relevance_spec. exists k. split; [by apply Hsub|].
  rewrite !lower_app. by apply substring_of_context.
Qed.

Lemma check_relevance_monotone_witness :
  check_relevance ("Help: " +:+ "my seating chart" +:+ " is a mess")
    ["table layout"; "seating chart"] = true.
Proof.
  apply (check_relevance_monotone "my seating chart" "Help: " " is a mess"
           ["seating chart"] ["table layout"; "seating chart"]).
  - reflexivity.
  - intros k [<-|[]]. right. by left.
Defined.

(** ** Keywords of the command line *)

(** X3.  A non-empty [--keywords] option gives one keyword more than it has
    commas; no keyword contains a comma, starts or ends with white space,
    or changes when stripped again.  An empty option gives the default
    keywords, like an absent one. *)
Theorem parse_keywords_shape (s : string) :
  s ≠ "" →
  length (parse_keywords (Some s)) = S (PyText.count_commas s) ∧
  Forall (λ kw,
            PyText.count_commas kw = 0 ∧
            (∀ c, PyText.first_char kw = Some c → PyText.is_space c = false) ∧
            (∀ c, PyText.last_char kw = Some c → PyText.is_space c = false) ∧
            PyText.strip kw = kw)
    (parse_keywords (Some s)) ∧
  parse_keywords (Some "") = parse_keywords None.
Proof.
  intros Hs. destruct s as [|c s]; [done|]. cbn [parse_keywords].
  split; [by rewrite length_map, split_comma_length|]. split; [|done].
  apply Forall_map. eapply Forall_impl; [apply split_comma_no_comma|].
  intros piece Hpiece. cbn beta.
  split; [by rewrite strip_commas|]. split; [apply strip_first|].
  split; [apply strip_last | apply strip_idem].
Qed.

Lemma parse_keywords_shape_witness :
  length (parse_keywords (Some " AI tool, productivity app ")) = 2.
Proof.
  destruct (parse_keywords_shape " AI tool, productivity app "
              ltac:(discriminate)) as [H _].
  exact H.
Defined.

(** X4.  A [--keywords] option that ends with a comma contains the empty
    keyword, so every text is relevant and the monitor reports every
    submission. *)
Theorem trailing_comma_matches_everything (s T : string)
    (submission : Praw.submission) (now : PyFmt.datetime) :
  In "" (parse_keywords (Some (s +:+ ","))) ∧
  check_relevance T (parse_keywords (Some (s +:+ ","))) = true ∧
  monitor_match (parse_keywords (Some (s +:+ ","))) submission now
    = Some (monitor_record submission now).
Proof.
  assert (Hin : In "" (parse_keywords (Some (s +:+ ",")))).
  { assert (parse_keywords (Some (s +:+ ","))
            = map PyText.strip (PyText.split_comma (s +:+ ","))) as ->.
    { by destruct s. }
    rewrite split_comma_trailing, map_app. apply in_or_app. right. by left. }
  split; [done|]. split; [by apply check_relevance_empty_keyword|].
  unfold monitor_match.
  by rewrite (check_relevance_empty_keyword _ _ Hin).
Qed.

(** ** Search aggregator *)

(** X5.  [search_reddit] prints nothing on standard output and touches no
    file; on the error stream it adds one report per keyword whose search
    ended with an error, in keyword order, and nothing for the others.  The
    error of a keyword is the one its search raised after every yielded
    submission was turned into a record, or the one raised while building
    the record of the first submission that could not be turned into one.
    The records it returns do not depend on the world it runs in. *)
Theorem search_reddit_effects
    (fromtimestamp : Z → outcome PyFmt.datetime)
    (search : string → string → string → string → Z → Praw.listing)
    (subreddits : string) (keywords : list string) (time_filter : string)
    (limit : Z) (sort : string) (w w' : world) :
  let error_of kw :=
    keyword_error fromtimestamp search subreddits time_filter limit sort kw in
  run (search_reddit fromtimestamp search subreddits keywords time_filter
         limit sort) w
  = World (stdout w)
      (stderr w
       +:+ foldr (λ kw acc, error_report kw (error_of kw) +:+ acc) ""
             keywords)
      (files w) ∧
  (∀ kw,
     (error_of kw = Praw.raised (search subreddits kw sort time_filter limit)
      ∧ Forall (λ post, ∃ r, search_record fromtimestamp post = Returned r)
          (Praw.yielded (search subreddits kw sort time_filter limit))) ∨
     (∃ before post after e,
        Praw.yielded (search subreddits kw sort time_filter limit)
          = before ++ post :: after ∧
        Forall (λ post, ∃ r, search_record fromtimestamp post = Returned r)
          before ∧
        search_record fromtimestamp post = Raised e ∧
        error_of kw = Some e)) ∧
  result (search_reddit fromtimestamp search subreddits keywords time_filter
            limit sort) w
  = result (search_reddit fromtimestamp search subreddits keywords
              time_filter limit sort) w'.
Proof.
  cbn zeta. split; [|split].
  - unfold run. rewrite search_reddit_eq. cbn [snd]. apply collect_world.
  - intros kw.
    destruct (keyword_outcome fromtimestamp search subreddits time_filter
                limit sort kw)
      as [[Herr Hall] | (before & p & after & e & Hy & Hp & Herr & Hall)].
    + left. split; [done|]. apply Forall_forall. intros post Hpost.
      apply list_elem_of_lookup in Hpost as [i Hi].
      destruct (Forall2_lookup_l _ _ _ _ _ Hall Hi) as (r & _ & Hr).
      by exists r.
    + right. exists before, p, after, e. split; [done|].
      split; [|done]. apply Forall_forall. intros post Hpost.
      apply list_elem_of_lookup in Hpost as [i Hi].
      destruct (Forall2_lookup_l _ _ _ _ _ Hall Hi) as (r & _ & Hr).
      by exists r.
  - unfold result. rewrite !search_reddit_eq. cbn [fst].
    by rewrite !collect_result.
Qed.

(** X6.  Every record [search_reddit] returns was built from a submission
    that the search for one of the keywords yielded, and there are at most
    as many records as submissions were yielded; with no keywords the result
    is empty. *)
Theorem search_reddit_provenance
    (fromtimestamp : Z → outcome PyFmt.datetime)
    (search : string → string → string → string → Z → Praw.listing)
    (subreddits : string) (keywords : list string) (time_filter : string)
    (limit : Z) (sort : string) (w : world) :
  let returned :=
    result (search_reddit fromtimestamp search subreddits keywords
              time_filter limit sort) w in
  (∀ r, r ∈ returned →
     ∃ kw post,
       kw ∈ keywords ∧
       post ∈ Praw.yielded (search subreddits kw sort time_filter limit) ∧
       search_record fromtimestamp post = Returned r) ∧
  length returned
    ≤ length (concat (map (λ kw, Praw.yielded
                                  (search subreddits kw sort time_filter
                                     limit)) keywords)) ∧
  result (search_reddit fromtimestamp search subreddits [] time_filter limit
            sort) w = [].
Proof.
  cbn zeta. split; [|split]; [| |reflexivity];
    unfold result; rewrite search_reddit_eq; cbn [fst].
  - intros r Hr. rewrite sort_desc_perm in Hr.
    eapply collect_provenance, elem_of_sublist; [done | apply dedup_sublist].
  - rewrite sort_desc_perm.
    etrans; [apply sublist_length, dedup_sublist|].
    rewrite collect_result. clear w.
    induction keywords as [|kw kws IH]; [done|].
    cbn [map concat]. rewrite !length_app.
    pose proof (keyword_records_length fromtimestamp search subreddits
                  time_filter limit sort kw).
    lia.
Qed.

(** X7.  Deduplicating and ranking again what [search_reddit] returned
    changes nothing. *)
Theorem search_reddit_fixed_point
    (fromtimestamp : Z → outcome PyFmt.datetime)
    (search : string → string → string → string → Z → Praw.listing)
    (subreddits : string) (keywords : list string) (time_filter : string)
    (limit : Z) (sort : string) (w : world) :
  let returned :=
    result (search_reddit fromtimestamp search subreddits keywords
              time_filter limit sort) w in
  dedup returned = returned ∧ sort_desc engagement returned = returned.
Proof.
  cbn zeta. unfold result. rewrite search_reddit_eq. cbn [fst].
  split; [|apply sort_desc_idem].
  apply dedup_distinct. rewrite sort_desc_perm. apply dedup_NoDup.
Qed.

(** X20.  When the URLs of the collected records are pairwise distinct,
    nothing is dropped: [search_reddit] returns a rearrangement of all the
    collected records. *)
Theorem search_reddit_keeps_distinct
    (fromtimestamp : Z → outcome PyFmt.datetime)
    (search : string → string → string → string → Z → Praw.listing)
    (subreddits : string) (keywords : list string) (time_filter : string)
    (limit : Z) (sort : string) (w : world) :
  let collected :=
    result (collect fromtimestamp search subreddits time_filter limit sort
              keywords []) w in
  NoDup (url <$> collected) →
  result (search_reddit fromtimestamp search subreddits keywords time_filter
            limit sort) w ≡ₚ collected.
Proof.
  cbn zeta. intros Hnd. unfold result at 1. rewrite search_reddit_eq.
  cbn [fst]. by rewrite sort_desc_perm, dedup_distinct.
Qed.

Lemma search_reddit_keeps_distinct_witness :
  ∃ first second,
    result (collect utc_fromtimestamp steady_search "weddingplanning" "month"
              250 "new" ["seating chart"; "table layout"] []) empty_world
      = [first; second] ∧
    url first ≠ url second ∧
    result (search_reddit utc_fromtimestamp steady_search "weddingplanning"
              ["seating chart"; "table layout"] "month" 250 "new")
      empty_world
    ≡ₚ [first; second].
Proof.
  eexists _, _. split; [reflexivity|]. split; [discriminate|].
  apply (search_reddit_keeps_distinct utc_fromtimestamp steady_search
           "weddingplanning" ["seating chart"; "table layout"] "month" 250
           "new" empty_world).
  apply NoDup_cons. split; [|apply NoDup_singleton].
  intros Hin. apply list_elem_of_singleton in Hin. discriminate Hin.
Defined.

(** X8.  With a client that answers a query the same way whenever it is
    asked, the URLs found do not depend on the order of the keywords. *)
Theorem search_reddit_keyword_order
    (fromtimestamp : Z → outcome PyFmt.datetime)
    (search : string → string → string → string → Z → Praw.listing)
    (subreddits : string) (keywords keywords' : list string)
    (time_filter : string) (limit : Z) (sort : string) (w : world)
    (u : string) :
  keywords ≡ₚ keywords' →
  u ∈ url <$> result (search_reddit fromtimestamp search subreddits keywords
                        time_filter limit sort) w ↔
  u ∈ url <$> result (search_reddit fromtimestamp search subreddits
                        keywords' time_filter limit sort) w.
Proof.
  intros Hperm. unfold result. rewrite !search_reddit_eq. cbn [fst].
  rewrite !sort_desc_perm, !dedup_urls, !collect_result.
  assert (∀ ks, u ∈ url <$> concat
                  (map (λ kw, keyword_records fromtimestamp search
                                subreddits time_filter limit sort kw) ks)
               ↔ ∃ kw, kw ∈ ks ∧
                   u ∈ url <$> keyword_records fromtimestamp search
                                 subreddits time_filter limit sort kw)
    as Hchar.
  { intros ks. rewrite list_elem_of_fmap. split.
    - intros (r & -> & Hr).
      apply list_elem_of_In, in_concat in Hr as (l & Hl & Hr).
      apply in_map_iff in Hl as (kw & <- & Hkw).
      exists kw. split; [by apply list_elem_of_In|].
      apply list_elem_of_fmap. exists r. split; [done|].
      by apply list_elem_of_In.
    - intros (kw & Hkw & (r & -> & Hr)%list_elem_of_fmap).
      exists r. split; [done|]. apply list_elem_of_In, in_concat.
      eexists. split; [apply in_map, list_elem_of_In, Hkw|].
      by apply list_elem_of_In. }
  rewrite !Hchar. by setoid_rewrite Hperm.
Qed.

Lemma search_reddit_keyword_order_witness :
  "https://reddit.com/r/weddingplanning/comments/abc/seating_chart_help/"
  ∈ url <$> result (search_reddit utc_fromtimestamp flaky_search
                      "weddingplanning" ["table layout"; "seating chart"]
                      "month" 250 "new") empty_world.
Proof.
  apply (search_reddit_keyword_order utc_fromtimestamp flaky_search
           "weddingplanning" ["seating chart"; "table layout"]
           ["table layout"; "seating chart"] "month" 250 "new" empty_world).
  - apply Permutation_swap.
  - cbn. by left.
Defined.

(** ** Stream monitor *)

(** X9.  [monitor_reddit] prints its two header lines and then one line per
    relevant event, in the order of arrival; an event that is not relevant
    prints nothing, and nothing is ever written to the error stream or to a
    file. *)
Theorem monitor_reddit_output (subreddits : string) (keywords : list string)
    (events : list (Praw.submission * PyFmt.datetime)) (w : world) :
  run (monitor_reddit subreddits keywords events) w =
    World
      (stdout w +:+ monitor_header subreddits keywords
       +:+ monitor_lines keywords events)
      (stderr w) (files w).
Proof.
  pose proof (monitor_loop_world keywords events) as Hloop.
  unfold monitor_reddit. rewrite !run_bind, Hloop, !run_print.
  cbn [stdout stderr files]. f_equal. unfold monitor_header.
  by rewrite !PyStrFacts.app_assoc.
Qed.

(** X10.  What the monitor has printed stays: after more events the output
    is the earlier output followed by the lines of the new events. *)
Theorem monitor_reddit_appends (subreddits : string)
    (keywords : list string)
    (events more : list (Praw.submission * PyFmt.datetime)) (w : world) :
  stdout (run (monitor_reddit subreddits keywords (events ++ more)) w) =
    stdout (run (monitor_reddit subreddits keywords events) w)
    +:+ monitor_lines keywords more.
Proof.
  rewrite !monitor_reddit_output_eq. cbn [stdout].
  by rewrite monitor_lines_app, !PyStrFacts.app_assoc.
Qed.

(** X11.  The line printed for a relevant event is printable ASCII followed
    by one line break, and reads back as the record that was built. *)
Theorem monitor_line_is_json (keywords : list string)
    (submission : Praw.submission) (now : PyFmt.datetime) (r : post_record)
    (w : world) :
  monitor_match keywords submission now = Some r →
  ∃ text,
    stdout (run (monitor_event keywords (submission, now)) w)
      = stdout w +:+ text +:+ String Json.newline "" ∧
    PyText.all_chars PyText.is_printable text = true ∧
    Json.loads text = Some (json_of_record r).
Proof.
  intros Hmatch. exists (Json.dumps None (json_of_record r)).
  split; [|split].
  - unfold monitor_event. cbn [fst snd]. by rewrite Hmatch.
  - apply record_line_printable.
  - rewrite <- (PyStrFacts.app_nil_r (Json.dumps _ _)).
    by apply loads_record_line.
Qed.

Lemma monitor_line_is_json_witness :
  ∃ text,
    stdout (run (monitor_event ["seating chart"]
                   (sample_submission, PyFmt.Datetime 2025 3 9 8 30 0 0))
              empty_world)
      = "" +:+ text +:+ String Json.newline "" ∧
    PyText.all_chars PyText.is_printable text = true ∧
    Json.loads text
      = Some (json_of_record
                (monitor_record sample_submission
                   (PyFmt.Datetime 2025 3 9 8 30 0 0))).
Proof.
  apply (monitor_line_is_json ["seating chart"] sample_submission
           (PyFmt.Datetime 2025 3 9 8 30 0 0) _ empty_world).
  reflexivity.
Defined.

(** ** Result formatter *)

(** X12.  Without an output path, or with the empty string as path,
    [output_results] only appends to standard output, whatever the format:
    nothing goes to the error stream and no file is touched. *)
Theorem output_without_path (open_error : string → option string)
    (results : list post_record)
    (output_format : string) (limit : option Z) (w : world) :
  output_results open_error results output_format (Some "") limit
    = output_results open_error results output_format None limit ∧
  ∃ out,
    run (output_results open_error results output_format None limit) w
      = World (stdout w +:+ out) (stderr w) (files w).
Proof. split; [reflexivity | apply output_results_no_file]. Qed.

(** X13.  With the format ["json"] and a non-empty path, whatever its
    extension: when the path can be opened for writing, the file receives
    the JSON text of the displayed records, the other files are untouched,
    standard output is untouched, the error stream gets one confirmation
    line with the number of displayed records, and the formatter returns;
    when opening the path raises, the formatter ends with that exception,
    and nothing is written or printed. *)
Theorem json_selector_writes_file (open_error : string → option string)
    (results : list post_record) (f : string)
    (limit : option Z) (w : world) :
  f ≠ "" →
  let shown := displayed results limit in
  let formatting := output_results open_error results "json" (Some f) limit in
  let w' := run formatting w in
  (open_error f = None →
   result formatting w = Returned tt ∧
   files w' !! f = Some (Json.dumps (Some 2) (json_of_results shown)) ∧
   (∀ g, g ≠ f → files w' !! g = files w !! g) ∧
   stdout w' = stdout w ∧
   stderr w' = stderr w +:+ "Saved " +:+ PyFmt.str_of_len shown
               +:+ " results to " +:+ f +:+ String Json.newline "") ∧
  (∀ e, open_error f = Some e → result formatting w = Raised e ∧ w' = w).
Proof.
  intros Hf. cbn zeta. unfold result, run. split.
  - intros Hopen. rewrite output_results_json_file by done.
    cbn [fst snd files stdout stderr]. split; [done|].
    split; [apply lookup_insert_eq|].
    split; [intros g Hg; by apply lookup_insert_ne|]. split; [done|].
    unfold saved_message. by rewrite !PyStrFacts.app_assoc.
  - intros e Hopen.
    by rewrite (output_results_json_raises _ _ _ _ _ e) by done.
Qed.

Lemma json_selector_writes_file_witness :
  files (run (output_results sample_open_error [sample_post_1] "json"
                (Some "results.csv") None) empty_world) !! "results.csv"
  = Some (Json.dumps (Some 2) (json_of_results [sample_post_1])) ∧
  output_results sample_open_error [sample_post_1] "json"
    (Some "no_such_dir/results.json") None empty_world
  = (Raised "[Errno 2] No such file or directory: 'no_such_dir/results.json'",
     empty_world).
Proof.
  split.
  - destruct (json_selector_writes_file sample_open_error [sample_post_1]
                "results.csv" None empty_world ltac:(discriminate))
      as [H _].
    destruct (H eq_refl) as (_ & Hfile & _). exact Hfile.
  - destruct (json_selector_writes_file sample_open_error [sample_post_1]
                "no_such_dir/results.json" None empty_world
                ltac:(discriminate)) as [_ H].
    destruct (H _ eq_refl) as [Hres Hw].
    apply injective_projections; [exact Hres | exact Hw].
Defined.

(** X14.  A negative cap [-k] leaves out the last [k] records: what is
    rendered is the rendering of all but the last [k]. *)
Theorem negative_cap_drops_from_end (open_error : string → option string)
    (results : list post_record) (k : Z)
    (output_format : string) (output_file : option string) :
  (0 < k)%Z →
  displayed results (Some (- k)%Z)
    = take (length results - Z.to_nat k) results ∧
  output_results open_error results output_format output_file
    (Some (- k)%Z)
    = output_results open_error
        (take (length results - Z.to_nat k) results)
        output_format output_file None.
Proof.
  intros Hk.
  assert (Hd : displayed results (Some (- k)%Z)
               = take (length results - Z.to_nat k) results).
  { unfold displayed, limit_given, slice_to.
    destruct (Z.eqb_spec (- k) 0) as [E|_]; [lia|].
    destruct (Z.leb_spec 0 (- k)) as [E|_]; [lia|].
    by rewrite Z.opp_involutive. }
  split; [exact Hd|]. unfold output_results. by rewrite Hd, displayed_none.
Qed.

Lemma negative_cap_drops_from_end_witness :
  displayed [sample_post_1; sample_post_2] (Some (- 1)%Z) = [sample_post_1].
Proof.
  destruct (negative_cap_drops_from_end sample_open_error
              [sample_post_1; sample_post_2] 1 "text" None ltac:(lia))
    as [H _].
  exact H.
Defined.

(** X15.  A format selector that is neither ["json"] nor ["csv"] is handled
    like ["text"]. *)
Theorem unknown_format_is_text (open_error : string → option string)
    (results : list post_record)
    (output_format : string) (output_file : option string)
    (limit : option Z) :
  output_format ≠ "json" → output_format ≠ "csv" →
  output_results open_error results output_format output_file limit
    = output_results open_error results "text" output_file limit.
Proof.
  intros Hj Hc. unfold output_results.
  rewrite (proj2 (String.eqb_neq _ _) Hj), (proj2 (String.eqb_neq _ _) Hc).
  reflexivity.
Qed.

Lemma unknown_format_is_text_witness :
  output_results sample_open_error [sample_post_1] "xml" None None
    = output_results sample_open_error [sample_post_1] "text" None None.
Proof.
  apply (unknown_format_is_text sample_open_error [sample_post_1] "xml" None
           None); discriminate.
Defined.

(** X16.  In text mode without a path, standard output receives the header
    with the number of displayed records, a blank line, and then the block
    of each displayed record in order; so the block of every displayed
    record, with its score, comment count, community, title, URL and
    author, occurs in the output, and when no record is displayed the output
    is the header for 0 posts and the blank line. *)
Theorem text_output_lists_records (open_error : string → option string)
    (results : list post_record) (limit : option Z) (w : world) :
  let shown := displayed results limit in
  let printed :=
    "Found " +:+ PyFmt.str_of_len shown +:+ " relevant posts:"
    +:+ String Json.newline "" +:+ String Json.newline ""
    +:+ foldr (λ r acc, text_block r +:+ acc) "" shown in
  run (output_results open_error results "text" None limit) w
    = World (stdout w +:+ printed) (stderr w) (files w) ∧
  (∀ r, r ∈ shown → PyStr.substring_of (text_block r) printed) ∧
  (shown = [] →
   printed = "Found 0 relevant posts:" +:+ String Json.newline ""
             +:+ String Json.newline "").
Proof.
  cbn zeta. split; [|split].
  - unfold output_results. cbn [String.eqb Ascii.eqb Bool.eqb path_given orb].
    rewrite !run_bind, print_text_records_world, run_print.
    cbn [stdout stderr files]. by rewrite !PyStrFacts.app_assoc.
  - intros r Hr. do 4 apply substring_of_app_r. apply substring_of_app_r.
    by apply text_blocks_contain.
  - by intros ->.
Qed.

Lemma text_output_lists_records_witness :
  PyStr.substring_of (text_block sample_post_2)
    ("Found " +:+ PyFmt.str_of_len [sample_post_1; sample_post_2]
     +:+ " relevant posts:" +:+ String Json.newline ""
     +:+ String Json.newline ""
     +:+ foldr (λ r acc, text_block r +:+ acc) ""
           [sample_post_1; sample_post_2]) ∧
  run (output_results sample_open_error [] "text" None (Some 20%Z))
    empty_world
  = World ("Found 0 relevant posts:" +:+ String Json.newline ""
           +:+ String Json.newline "") "" ∅.
Proof.
  split.
  - refine (proj1 (proj2 (text_output_lists_records sample_open_error
                            [sample_post_1; sample_post_2] None
                            empty_world)) sample_post_2 _).
    cbn. right. by left.
  - destruct (text_output_lists_records sample_open_error [] (Some 20%Z)
                empty_world) as (Hrun & _ & Hempty).
    rewrite Hrun, (Hempty eq_refl). reflexivity.
Defined.

(** X17.  A record whose text fields contain no comma, double quote or
    line break is written to CSV as its seven values joined by commas, in
    the order of the header; the two integers are never quoted. *)
Theorem csv_row_plain (r : post_record) :
  Csv.has_special (title r) = false →
  Csv.has_special (subreddit r) = false →
  Csv.has_special (url r) = false →
  Csv.has_special (created r) = false →
  Csv.has_special (author r) = false →
  csv_row r =
    title r +:+ "," +:+ subreddit r +:+ "," +:+ PyFmt.str_of_Z (score r)
    +:+ "," +:+ PyFmt.str_of_Z (comments r) +:+ "," +:+ url r +:+ ","
    +:+ created r +:+ "," +:+ author r +:+ Csv.crlf.
Proof.
  intros Ht Hs Hu Hc Ha. unfold csv_row, Csv.row. cbn [map join].
  rewrite !field_plain by (done || apply str_of_Z_plain).
  destruct (title r); by rewrite !PyStrFacts.app_assoc.
Qed.

Lemma csv_row_plain_witness :
  csv_row sample_post_1 =
    "Test Post 1,weddingplanning,100,50,"
    +:+ "https://reddit.com/r/weddingplanning/test1,2025-01-01T12:00:00,"
    +:+ "testuser1" +:+ Csv.crlf.
Proof.
  rewrite (csv_row_plain sample_post_1 eq_refl eq_refl eq_refl eq_refl
             eq_refl).
  reflexivity.
Defined.

(** ** Command line *)

(** X18.  The [search] command with [--json], or with an output path that
    ends in [.json], saves JSON.  When the path can be opened for writing,
    the file receives a text that reads back as the displayed records (the
    ranked results of a search with a limit of 50 per keyword, cut to
    [--limit]), nothing is printed on standard output, and the exit status
    is 0.  When opening the path raises, [main] ends with that exception
    instead of a status, after the search: no file is written and nothing
    is printed on standard output. *)
Theorem main_saves_json
    (fromtimestamp : Z → outcome PyFmt.datetime)
    (search : string → string → string → string → Z → Praw.listing)
    (open_error : string → option string)
    (help_text : string) (o : search_options) (f : string)
    (events : list (Praw.submission * PyFmt.datetime)) (w : world) :
  search_output o = Some f → f ≠ "" →
  search_json o = true ∨ PyStr.endswith f ".json" = true →
  let returned :=
    result (search_reddit fromtimestamp search (search_subreddits o)
              (parse_keywords (search_keywords o)) (search_time o) 50
              (search_sort o)) w in
  let shown := displayed returned (Some (search_limit o)) in
  let command := main fromtimestamp search open_error help_text (Search o)
                   events in
  let w' := run command w in
  (open_error f = None →
   result command w = Returned (Some 0%Z) ∧
   stdout w' = stdout w ∧
   ∃ text, files w' !! f = Some text ∧
           Json.loads text = Some (json_of_results shown)) ∧
  (∀ e, open_error f = Some e →
   result command w = Raised e ∧ stdout w' = stdout w ∧ files w' = files w).
Proof.
  intros Hout Hf Hjson. cbn zeta. unfold result at 1 3. unfold run.
  rewrite main_search. cbn [fst snd].
  rewrite Hout, main_output_format_json by done. unfold result, run. split.
  - intros Hopen. rewrite output_results_json_file by done.
    cbn [fst snd stdout files]. split; [done|]. split.
    + apply search_reddit_frame.
    + rewrite lookup_insert_eq. eexists. split; [reflexivity|].
      rewrite <- (PyStrFacts.app_nil_r (Json.dumps _ _)).
      by apply loads_dumps_results.
  - intros e Hopen.
    rewrite (output_results_json_raises _ _ _ _ _ e) by done.
    cbn [fst snd]. split; [done|]. apply search_reddit_frame.
Qed.

Lemma main_saves_json_witness :
  (∃ text r,
     files (run (main utc_fromtimestamp flaky_search sample_open_error
                   "usage"
                   (Search (SearchOptions "weddingplanning" None "month"
                              "new" 20 false (Some "found.json"))) [])
              empty_world) !! "found.json" = Some text ∧
     search_record utc_fromtimestamp sample_submission = Returned r ∧
     Json.loads text = Some (json_of_results [r])) ∧
  result (main utc_fromtimestamp flaky_search sample_open_error "usage"
            (Search (SearchOptions "weddingplanning" None "month" "new" 20
                       true (Some "."))) []) empty_world
  = Raised "[Errno 21] Is a directory: '.'".
Proof.
  split.
  - destruct (main_saves_json utc_fromtimestamp flaky_search
                sample_open_error "usage"
                (SearchOptions "weddingplanning" None "month" "new" 20 false
                   (Some "found.json"))
                "found.json" [] empty_world eq_refl ltac:(discriminate)
                (or_intror eq_refl)) as [H _].
    destruct (H eq_refl) as (_ & _ & text & Hfile & Hloads).
    exists text. eexists. split; [exact Hfile|].
    split; [reflexivity | exact Hloads].
  - destruct (main_saves_json utc_fromtimestamp flaky_search
                sample_open_error "usage"
                (SearchOptions "weddingplanning" None "month" "new" 20 true
                   (Some "."))
                "." [] empty_world eq_refl ltac:(discriminate)
                (or_introl eq_refl)) as [_ H].
    exact (proj1 (H _ eq_refl)).
Defined.

(** X19.  The [search] command without [--json] and with an output path
    that ends in [.csv] saves CSV.  When the path can be opened for writing,
    the file receives the header row and one row per displayed record,
    nothing is printed on standard output, and the exit status is 0.  When
    opening the path raises, [main] ends with that exception instead of a
    status, after the search: no file is written and nothing is printed on
    standard output. *)
Theorem main_saves_csv
    (fromtimestamp : Z → outcome PyFmt.datetime)
    (search : string → string → string → string → Z → Praw.listing)
    (open_error : string → option string)
    (help_text : string) (o : search_options) (f : string)
    (events : list (Praw.submission * PyFmt.datetime)) (w : world) :
  search_output o = Some f → search_json o = false →
  PyStr.endswith f ".csv" = true →
  let returned :=
    result (search_reddit fromtimestamp search (search_subreddits o)
              (parse_keywords (search_keywords o)) (search_time o) 50
              (search_sort o)) w in
  let shown := displayed returned (Some (search_limit o)) in
  let command := main fromtimestamp search open_error help_text (Search o)
                   events in
  let w' := run command w in
  (open_error f = None →
   result command w = Returned (Some 0%Z) ∧
   stdout w' = stdout w ∧
   files w' !! f
     = Some (csv_header +:+ foldr (λ r rows, csv_row r +:+ rows) "" shown)) ∧
  (∀ e, open_error f = Some e →
   result command w = Raised e ∧ stdout w' = stdout w ∧ files w' = files w).
Proof.
  intros Hout Hjson Hcsv. cbn zeta. unfold result at 1 3. unfold run.
  rewrite main_search. cbn [fst snd].
  rewrite Hout, Hjson, main_output_format_csv by done. unfold result, run.
  assert (Hf : f ≠ "") by (by eapply endswith_nonempty).
  split.
  - intros Hopen.
    rewrite output_results_csv_file; [|done|done|done|by right].
    cbn [fst snd stdout files]. split; [done|].
    split; [apply search_reddit_frame | apply lookup_insert_eq].
  - intros e Hopen.
    rewrite (output_results_csv_raises _ _ _ _ _ _ e);
      [|done|done|done|by right].
    cbn [fst snd]. split; [done|]. apply search_reddit_frame.
Qed.

Lemma main_saves_csv_witness :
  (∃ r,
     search_record utc_fromtimestamp sample_submission = Returned r ∧
     files (run (main utc_fromtimestamp flaky_search sample_open_error
                   "usage"
                   (Search (SearchOptions "weddingplanning" None "month"
                              "new" 20 false (Some "found.csv"))) [])
              empty_world) !! "found.csv"
     = Some (csv_header +:+ csv_row r)) ∧
  result (main utc_fromtimestamp flaky_search sample_open_error "usage"
            (Search (SearchOptions "weddingplanning" None "month" "new" 20
                       false (Some "no_such_dir/found.csv"))) [])
    empty_world
  = Raised "[Errno 2] No such file or directory: 'no_such_dir/found.csv'".
Proof.
  split.
  - destruct (main_saves_csv utc_fromtimestamp flaky_search
                sample_open_error "usage"
                (SearchOptions "weddingplanning" None "month" "new" 20 false
                   (Some "found.csv"))
                "found.csv" [] empty_world eq_refl eq_refl eq_refl)
      as [H _].
    destruct (H eq_refl) as (_ & _ & Hfile).
    eexists. split; [reflexivity | exact Hfile].
  - destruct (main_saves_csv utc_fromtimestamp flaky_search
                sample_open_error "usage"
                (SearchOptions "weddingplanning" None "month" "new" 20 false
                   (Some "no_such_dir/found.csv"))
                "no_such_dir/found.csv" [] empty_world eq_refl eq_refl
                eq_refl) as [_ H].
    exact (proj1 (H _ eq_refl)).
Defined.
